(** * youtube_shorts_api: the media job pipeline of src/api/youtube_shorts_api.py

    A shallow embedding of [YouTubeShortsProcessor] (download_video,
    convert_to_shorts_format, authenticate_youtube, upload_video) and of the
    routes that call them, followed by the properties of the pipeline.

    Numbers.  Python [int] is [Z].  A Python [float] is a double, and a double
    is a rational: it is modelled by the rational it stands for, in [Q].  In the
    transformer the constant [9/16], the halvings [width / 2] and
    [new_width / 2] and the products [height * (9/16)] are exact in binary
    floating point for every frame size a video can have, and the quotients
    [width/height] and [width / (9/16)] and the constant [0.1] are taken at
    their exact rational value.  In the publisher every operation on floats
    (lines 257 and 259) rounds its result to the nearest double, as the
    program does: see [Doubles].

    Requests.  The body of a request to [/api/upload] or [/api/process] is a
    JSON value, [Json.value]: its fields may hold a value of any type, and the
    routes and the stages they call are followed on all of them.

    Effects.  Library and operating-system calls (pytube, moviepy, urllib,
    googleapiclient, the OAuth flow, the file system) are oracles: each stage
    takes a record that says what every such call returns or raises.  The
    stage itself runs in [Py], a state-and-exception monad over [World]. *)

From Stdlib Require Import ZArith QArith Qabs Qround Qpower Lqa String Ascii List Lia Bool.
From Stdlib Require Import DecimalString DecimalZ.
Import ListNotations.

Open Scope string_scope.
Open Scope Q_scope.

(** ** Python values and built-ins *)

Module Py_builtins.

(** [int(x)] on a float: truncation toward zero. *)
Definition py_int (x : Q) : Z := Z.quot (Qnum x) (Zpos (Qden x)).

(** [a > b] on numbers. *)
Definition Qgtb (a b : Q) : bool := negb (Qle_bool a b).

(** [str(n)] for an [int], as an f-string prints it. *)
Definition str_int (n : Z) : string := NilEmpty.string_of_int (Z.to_int n).

(** [needle in haystack] on strings. *)
Definition str_in (needle haystack : string) : bool :=
  match String.index 0 needle haystack with
  | Some _ => true
  | None => false
  end.

(** Truth value of a string: [not s] holds of the empty string. *)
Definition str_truthy (s : string) : bool :=
  match s with
  | EmptyString => false
  | String _ _ => true
  end.

(** Truth value of an optional string ([None] is falsy too). *)
Definition opt_truthy (o : option string) : bool :=
  match o with
  | None => false
  | Some s => str_truthy s
  end.

Definition slash : ascii := "/"%char.

Fixpoint ends_with_slash (s : string) : bool :=
  match s with
  | EmptyString => false
  | String c EmptyString => Ascii.eqb c slash
  | String _ rest => ends_with_slash rest
  end.

(** [os.path.join(a, b)] (posixpath). *)
Definition os_path_join (a b : string) : string :=
  match b with
  | String c _ =>
      if Ascii.eqb c slash then b
      else if orb (negb (str_truthy a)) (ends_with_slash a) then a ++ b
      else a ++ "/" ++ b
  | EmptyString =>
      if orb (negb (str_truthy a)) (ends_with_slash a) then a
      else a ++ "/"
  end.

(** [os.path.basename(p)]: what follows the last slash. *)
Fixpoint os_path_basename (p : string) : string :=
  match p with
  | EmptyString => EmptyString
  | String c rest =>
      if str_in "/" rest then os_path_basename rest
      else if Ascii.eqb c slash then rest
      else p
  end.

End Py_builtins.
Import Py_builtins.

(** ** Doubles *)

(** Arithmetic on Python floats.  A result is rounded to the nearest number
    with 53 significant bits, a tie going to the even one (IEEE 754 binary64,
    rounding to nearest, ties to even).  The exponent is not bounded: a
    fraction of byte counts is never as small as 2^-1022, and no value met
    here is as large as 2^1024. *)
Module Doubles.

Definition pow2 (e : Z) : Q := Qpower 2 e.

(** The nearest integer, a tie going to the even one. *)
Definition nearest_even (y : Q) : Z :=
  let f := Qfloor y in
  match Qcompare (y - inject_Z f) (1 # 2) with
  | Lt => f
  | Gt => (f + 1)%Z
  | Eq => if Z.even f then f else (f + 1)%Z
  end.

(** The binary exponent of a positive [x]: 2^e <= x < 2^(e+1). *)
Definition exponent (x : Q) : Z :=
  let e0 := (Z.log2 (Qnum x) - Z.log2 (Zpos (Qden x)))%Z in
  if Qle_bool (pow2 e0) x then e0 else (e0 - 1)%Z.

(** A positive [x] rounded to 53 significant bits. *)
Definition round_pos (x : Q) : Q :=
  let q := pow2 (exponent x - 52) in
  Qred (inject_Z (nearest_even (x / q)) * q).

(** The double nearest to [x]. *)
Definition fl (x : Q) : Q :=
  match Qnum x with
  | Z0 => 0
  | Zpos _ => round_pos x
  | Zneg _ => - round_pos (- x)
  end.

(** [float(n)] for an [int], as mixed arithmetic converts it. *)
Definition of_int (n : Z) : Q := fl (inject_Z n).

(** [a * b] and [a + b] on floats. *)
Definition mul (a b : Q) : Q := fl (a * b).
Definition add (a b : Q) : Q := fl (a + b).

(** A number that has 53 significant bits. *)
Definition representable (c : Q) : Prop :=
  exists K : Z, c == inject_Z K * pow2 (exponent c - 52).

(** The largest relative error of one rounding, 2^-53. *)
Definition unit_roundoff : Q := pow2 (-53).

End Doubles.

(** ** JSON values *)

(** The values [request.get_json()] returns: Python's None, bool, int, float,
    str, list and dict.  (NaN and the infinities, which Python's parser also
    accepts, behave here like any other non-zero float.) *)
Module Json.

#[warnings="-register-all"]
Inductive value : Type :=
| Null
| Bool (b : bool)
| Int (n : Z)
| Float (x : Q)
| Str (s : string)
| List (items : list value)
| Object (fields : list (string * value)).

(** The truth value of [v]: what [not v] negates. *)
Definition truthy (v : value) : bool :=
  match v with
  | Null => false
  | Bool b => b
  | Int n => negb (n =? 0)%Z
  | Float x => negb (Qeq_bool x 0)
  | Str s => str_truthy s
  | List items => match items with [] => false | _ :: _ => true end
  | Object fields => match fields with [] => false | _ :: _ => true end
  end.

(** [type(v).__name__], as exception texts print it. *)
Definition type_name (v : value) : string :=
  match v with
  | Null => "NoneType"
  | Bool _ => "bool"
  | Int _ => "int"
  | Float _ => "float"
  | Str _ => "str"
  | List _ => "list"
  | Object _ => "dict"
  end.

(** The value of a key in a parsed object: of two fields of one name the
    later one counts. *)
Fixpoint lookup (fields : list (string * value)) (key : string) : option value :=
  match fields with
  | [] => None
  | (k, v) :: rest =>
      match lookup rest key with
      | Some later => Some later
      | None => if String.eqb k key then Some v else None
      end
  end.

(** [data.get(key, default)] *)
Definition get (fields : list (string * value)) (key : string) (default : value) : value :=
  match lookup fields key with
  | Some v => v
  | None => default
  end.

End Json.

(** ** The world the stages act on *)

(** A progress event as handed to [progress_callback(percent, message)]. *)
Definition ProgressEvent : Type := (Q * string)%type.

Definition percent (e : ProgressEvent) : Q := fst e.
Definition message (e : ProgressEvent) : string := snd e.

(** Pickled OAuth credentials, with the attributes the code reads. *)
Record Credentials := mkCredentials {
  cred_id : nat;
  valid : bool;
  expired : bool;
  refresh_token : bool
}.

(** The crop rectangle given to [clip.crop(x1=, y1=, x2=, y2=)]. *)
Record CropRect := mkCropRect {
  x1 : Q;
  y1 : Q;
  x2 : Q;
  y2 : Q
}.

(** A moviepy clip: its duration, the frame size read from the file, and the
    rectangle it was cropped to, if any. *)
Record Clip := mkClip {
  duration : Q;
  size : Z * Z;
  cropped_to : option CropRect
}.

Record World := mkWorld {
  progress_log : list ProgressEvent;      (* events received by the callback, oldest first *)
  open_clips : nat;                       (* readers opened by VideoFileClip and not closed *)
  written : list (string * Clip);         (* files rendered by write_videofile *)
  network : list string;                  (* remote calls made, oldest first *)
  consent_flows : nat;                    (* runs of flow.run_local_server *)
  token_pickle : option Credentials;      (* contents of token.pickle, if it exists *)
  temp_client_secret : option string;     (* contents of temp_client_secret.json *)
  youtube_service : option Credentials    (* self.youtube_service: the credentials it was built with *)
}.

(** The processor right after [__init__], on a clean disk. *)
Definition initial_world : World :=
  mkWorld [] 0 [] [] 0 None None None.

Definition log_progress (e : ProgressEvent) (w : World) : World :=
  mkWorld (progress_log w ++ [e]) (open_clips w) (written w) (network w)
          (consent_flows w) (token_pickle w) (temp_client_secret w) (youtube_service w).

Definition set_open_clips (n : nat) (w : World) : World :=
  mkWorld (progress_log w) n (written w) (network w)
          (consent_flows w) (token_pickle w) (temp_client_secret w) (youtube_service w).

Definition add_written (f : string * Clip) (w : World) : World :=
  mkWorld (progress_log w) (open_clips w) (written w ++ [f]) (network w)
          (consent_flows w) (token_pickle w) (temp_client_secret w) (youtube_service w).

Definition log_network (call : string) (w : World) : World :=
  mkWorld (progress_log w) (open_clips w) (written w) (network w ++ [call])
          (consent_flows w) (token_pickle w) (temp_client_secret w) (youtube_service w).

Definition count_consent (w : World) : World :=
  mkWorld (progress_log w) (open_clips w) (written w) (network w)
          (S (consent_flows w)) (token_pickle w) (temp_client_secret w) (youtube_service w).

Definition set_token_pickle (c : option Credentials) (w : World) : World :=
  mkWorld (progress_log w) (open_clips w) (written w) (network w)
          (consent_flows w) c (temp_client_secret w) (youtube_service w).

Definition set_temp_client_secret (c : option string) (w : World) : World :=
  mkWorld (progress_log w) (open_clips w) (written w) (network w)
          (consent_flows w) (token_pickle w) c (youtube_service w).

Definition set_youtube_service (c : option Credentials) (w : World) : World :=
  mkWorld (progress_log w) (open_clips w) (written w) (network w)
          (consent_flows w) (token_pickle w) (temp_client_secret w) c.

(** ** The monad of a stage: state plus Python exceptions *)

(** An exception is represented by [str(e)], the only thing the handlers use. *)
Inductive Outcome (A : Type) : Type :=
| Returned (a : A)
| Raised (e : string).
Arguments Returned {A} a.
Arguments Raised {A} e.

Definition Py (A : Type) : Type := World -> Outcome A * World.

Definition ret {A} (a : A) : Py A := fun w => (Returned a, w).

Definition bind {A B} (m : Py A) (k : A -> Py B) : Py B :=
  fun w =>
    match m w with
    | (Returned a, w') => k a w'
    | (Raised e, w') => (Raised e, w')
    end.

Definition raise {A} (e : string) : Py A := fun w => (Raised e, w).

(** [try: body except Exception as e: handler(str(e))]. *)
Definition try_except {A} (body : Py A) (handler : string -> Py A) : Py A :=
  fun w =>
    match body w with
    | (Returned a, w') => (Returned a, w')
    | (Raised e, w') => handler e w'
    end.

Definition modify (f : World -> World) : Py unit := fun w => (Returned tt, f w).

Definition gets {A} (f : World -> A) : Py A := fun w => (Returned (f w), w).

(** The result of a call that may raise, as an oracle gives it. *)
Definition lift {A} (r : Outcome A) : Py A := fun w => (r, w).

Declare Scope py_scope.
Delimit Scope py_scope with py.
Notation "x <- m ;; k" := (bind m (fun x => k))
  (at level 61, m at next level, right associativity) : py_scope.
Notation "m ;;; k" := (bind m (fun _ => k))
  (at level 61, right associativity) : py_scope.
Open Scope py_scope.

(** A progress callback; it may itself act on the world. *)
Definition Callback : Type := Q -> string -> Py unit.

(** The callback that records each event it is given. *)
Definition recorder : Callback := fun p msg => modify (log_progress (p, msg)).

(** [if progress_callback: progress_callback(p, msg)]. *)
Definition notify (progress_callback : option Callback) (p : Q) (msg : string) : Py unit :=
  match progress_callback with
  | Some cb => cb p msg
  | None => ret tt
  end.

(** ** Shorts Transformer: [convert_to_shorts_format] *)

Module Transformer.

(** moviepy, as the stage uses it. *)
Record MoviePy := mkMoviePy {
  (* VideoFileClip(path): the duration and frame size of the file, or an exception *)
  video_file_clip : string -> Outcome (Q * (Z * Z));
  (* clip.write_videofile(path, ...): [Some e] when rendering raises *)
  write_videofile : Clip -> string -> option string
}.

Definition PROCESSED_FOLDER : string := "processed".

Definition max_duration : Q := 60.
Definition target_aspect_ratio : Q := 9 # 16.
Definition tolerance : Q := 1 # 10.

(** [width/height]; Python raises ZeroDivisionError on a zero height. *)
Definition current_aspect_ratio (width height : Z) : Outcome Q :=
  if (height =? 0)%Z then Raised "division by zero"
  else Returned (inject_Z width / inject_Z height).

(** [clip.subclip(0, 60)] *)
Definition subclip (clip : Clip) (t_start t_end : Q) : Clip :=
  mkClip (t_end - t_start) (size clip) (cropped_to clip).

(** [clip.crop(x1=, y1=, x2=, y2=)] *)
Definition crop (clip : Clip) (r : CropRect) : Clip :=
  mkClip (duration clip) (size clip) (Some r).

(** Lines 128-131: the too-wide branch. *)
Definition new_width (height : Z) : Z :=
  py_int (inject_Z height * target_aspect_ratio).
Definition x_center (width : Z) : Q := inject_Z width / 2.
Definition crop_x1 (width height : Z) : Q :=
  x_center width - inject_Z (new_width height) / 2.
Definition crop_x2 (width height : Z) : Q :=
  x_center width + inject_Z (new_width height) / 2.

(** Lines 135-138: the too-tall branch. *)
Definition new_height (width : Z) : Z :=
  py_int (inject_Z width / target_aspect_ratio).
Definition y_center (height : Z) : Q := inject_Z height / 2.
Definition crop_y1 (width height : Z) : Q :=
  y_center height - inject_Z (new_height width) / 2.
Definition crop_y2 (width height : Z) : Q :=
  y_center height + inject_Z (new_height width) / 2.

(** Line 123: does the aspect ratio need adjustment? *)
Definition needs_crop (current : Q) : bool :=
  Qgtb (Qabs (current - target_aspect_ratio)) tolerance.

(** Line 126: is the video too wide? *)
Definition too_wide (current : Q) : bool :=
  Qgtb current target_aspect_ratio.

(** Lines 123-139: the rectangle given to [clip.crop], if the clip is cropped. *)
Definition crop_rect (width height : Z) (current : Q) : option CropRect :=
  if needs_crop current then
    if too_wide current then
      Some (mkCropRect (crop_x1 width height) 0 (crop_x2 width height) (inject_Z height))
    else
      Some (mkCropRect 0 (crop_y1 width height) (inject_Z width) (crop_y2 width height))
  else None.

Definition adjust_aspect_ratio (clip : Clip) (width height : Z) (current : Q) : Clip :=
  match crop_rect width height current with
  | Some r => crop clip r
  | None => clip
  end.

Definition close_clip : Py unit :=
  modify (fun w => set_open_clips (pred (open_clips w)) w).

Definition convert_body (mp : MoviePy) (video_path : string)
           (progress_callback : option Callback) : Py (option string) :=
  notify progress_callback 10 "Loading video..." ;;;
  loaded <- lift (video_file_clip mp video_path) ;;
  modify (fun w => set_open_clips (S (open_clips w)) w) ;;;
  let clip := mkClip (fst loaded) (snd loaded) None in
  notify progress_callback 30 "Checking duration..." ;;;
  let clip := if Qgtb (duration clip) max_duration
              then subclip clip 0 max_duration else clip in
  notify progress_callback 50 "Checking aspect ratio..." ;;;
  let '(width, height) := size clip in
  current <- lift (current_aspect_ratio width height) ;;
  let clip := adjust_aspect_ratio clip width height current in
  let filename := os_path_basename video_path in
  let output_path := os_path_join PROCESSED_FOLDER ("shorts_" ++ filename) in
  notify progress_callback 70 "Rendering video..." ;;;
  match write_videofile mp clip output_path with
  | Some e => raise e
  | None =>
      modify (add_written (output_path, clip)) ;;;
      close_clip ;;;
      notify progress_callback 100 "Conversion complete!" ;;;
      ret (Some output_path)
  end.

Definition convert_to_shorts_format (mp : MoviePy) (video_path : string)
           (progress_callback : option Callback) : Py (option string) :=
  try_except (convert_body mp video_path progress_callback)
    (fun e =>
       notify progress_callback 0 ("Error: " ++ e) ;;;
       ret None).

(** A source file of the given duration and size that loads and renders
    without error. *)
Definition healthy (d : Q) (width height : Z) : MoviePy :=
  mkMoviePy (fun _ => Returned (d, (width, height))) (fun _ _ => None).

End Transformer.

(** ** Transport Fetcher: [download_video] *)

Module Fetcher.

(** pytube, urllib and the clock, as the stage uses them. *)
Record Transport := mkTransport {
  (* YouTube(url).streams.filter(...).order_by('resolution').desc().first():
     a stream, [None] when no stream qualifies, or an exception *)
  first_stream : string -> Outcome (option string);
  (* stream.download(output_path=...): the path written, or an exception *)
  stream_download : string -> string -> Outcome string;
  (* time.time() *)
  time_time : Q;
  (* urllib.request.urlretrieve(url, filename): [Some e] when it raises *)
  urlretrieve : string -> string -> option string
}.

Definition UPLOAD_FOLDER : string := "uploads".

(** Line 79: the destination of a generic download started at time [now]. *)
Definition video_name (now : Q) : string :=
  os_path_join UPLOAD_FOLDER ("video_" ++ str_int (py_int now) ++ ".mp4").

(** Line 55 *)
Definition is_youtube_url (url : string) : bool :=
  orb (str_in "youtube.com" url) (str_in "youtu.be" url).

Definition download_body (tr : Transport) (url : string)
           (progress_callback : option Callback) : Py (option string) :=
  notify progress_callback 10 "Starting download..." ;;;
  if is_youtube_url url then
    modify (log_network "pytube.YouTube") ;;;
    stream <- lift (first_stream tr url) ;;
    match stream with
    | None => ret None
    | Some st =>
        notify progress_callback 30 "Downloading video..." ;;;
        modify (log_network "stream.download") ;;;
        output_path <- lift (stream_download tr st UPLOAD_FOLDER) ;;
        notify progress_callback 100 "Download complete!" ;;;
        ret (Some output_path)
    end
  else
    notify progress_callback 50 "Downloading from URL..." ;;;
    let name := video_name (time_time tr) in
    modify (log_network "urlretrieve") ;;;
    match urlretrieve tr url name with
    | Some e => raise e
    | None =>
        notify progress_callback 100 "Download complete!" ;;;
        ret (Some name)
    end.

Definition download_video (tr : Transport) (url : string)
           (progress_callback : option Callback) : Py (option string) :=
  try_except (download_body tr url progress_callback)
    (fun e =>
       notify progress_callback 0 ("Error: " ++ e) ;;;
       ret None).

End Fetcher.

(** ** Session Authenticator: [authenticate_youtube] *)

Module Authenticator.

(** json, the OAuth flow and the API client, as the stage uses them.  Reading
    and writing the two local files (temp_client_secret.json, token.pickle) is
    taken to succeed. *)
Record OAuth := mkOAuth {
  (* json.loads(credentials_json), re-serialised by json.dump *)
  json_loads : string -> Outcome string;
  (* creds.refresh(Request()): the refreshed credentials *)
  refresh : Credentials -> Outcome Credentials;
  (* InstalledAppFlow.from_client_secrets_file(temp_cred_file, scopes), on the
     contents of the file: [Some e] when it raises *)
  from_client_secrets_file : string -> option string;
  (* flow.run_local_server(port=0): the consent of the user *)
  run_local_server : string -> Outcome Credentials;
  (* build('youtube', 'v3', credentials=creds): [Some e] when it raises *)
  build : Credentials -> option string
}.

(** Lines 192-196: build the flow from the secrets file, then ask the user.
    The user is asked only once the flow exists. *)
Definition consent (oa : OAuth) (temp_cred_file : string) : Py Credentials :=
  match from_client_secrets_file oa temp_cred_file with
  | Some e => raise e
  | None => modify count_consent ;;; lift (run_local_server oa temp_cred_file)
  end.

(** Lines 188-199: make sure [creds] is usable, asking the user if needed. *)
Definition ensure_valid (oa : OAuth) (creds : option Credentials)
           (temp_cred_file : string) : Py Credentials :=
  match creds with
  | Some c =>
      if valid c then ret c
      else
        fresh <- (if andb (expired c) (refresh_token c)
                  then lift (refresh oa c)
                  else consent oa temp_cred_file) ;;
        modify (set_token_pickle (Some fresh)) ;;;
        ret fresh
  | None =>
      fresh <- consent oa temp_cred_file ;;
      modify (set_token_pickle (Some fresh)) ;;;
      ret fresh
  end.

Definition authenticate_body (oa : OAuth) (credentials_json : string)
  : Py (bool * string) :=
  credentials_info <- lift (json_loads oa credentials_json) ;;
  modify (set_temp_client_secret (Some credentials_info)) ;;;
  creds <- gets token_pickle ;;
  creds <- ensure_valid oa creds credentials_info ;;
  match build oa creds with
  | Some e => raise e
  | None =>
      modify (set_youtube_service (Some creds)) ;;;
      modify (set_temp_client_secret None) ;;;
      ret (true, "Authentication successful")
  end.

Definition authenticate_youtube (oa : OAuth) (credentials_json : string)
  : Py (bool * string) :=
  try_except (authenticate_body oa credentials_json)
    (fun e => ret (false, "Authentication failed: " ++ e)).

End Authenticator.

(** ** Resumable Publisher: [upload_video] *)

Module Publisher.

(** One answer of [request.next_chunk()].  A status is given by the fraction
    of the file it stands for; [status.progress()] returns the double nearest
    to that fraction. *)
Inductive ChunkReply :=
| ChunkRaises (e : string)
| Chunk (status : option Q) (response : option string).

(** googleapiclient, as the stage uses it.  [next_chunk] answers from a
    script, one reply per call. *)
Record GoogleApi := mkGoogleApi {
  (* MediaFileUpload(file_path, ...): [Some e] when it raises *)
  media_file_upload : string -> option string;
  next_chunk : list ChunkReply
}.

(** [keywords.split(',')] *)
Fixpoint split_comma (s : string) : list string :=
  match s with
  | EmptyString => [EmptyString]
  | String c rest =>
      if Ascii.eqb c ","%char then EmptyString :: split_comma rest
      else match split_comma rest with
           | h :: t => String c h :: t
           | [] => [String c EmptyString]
           end
  end.

Record Body := mkBody {
  title : string;
  description : string;
  tags : list string;
  categoryId : string;
  privacyStatus : string;
  selfDeclaredMadeForKids : bool
}.

Definition make_body (title description category_id keywords privacy_status : string) : Body :=
  mkBody title description
         (if str_truthy keywords then split_comma keywords else [])
         category_id privacy_status false.

(** Line 257: [int(status.progress() * 100)] *)
Definition chunk_progress (p : Q) : Z :=
  py_int (Doubles.mul (Doubles.fl p) (Doubles.of_int 100)).

(** Line 259: [30 + progress * 0.7] *)
Definition progress_percent (progress : Z) : Q :=
  Doubles.add (Doubles.of_int 30)
              (Doubles.mul (Doubles.of_int progress) (Doubles.fl (7 # 10))).

(** Line 259: the percent reported for a chunk acknowledgement. *)
Definition chunk_percent (p : Q) : Q := progress_percent (chunk_progress p).

Definition chunk_message (p : Q) : string :=
  "Uploading... " ++ str_int (chunk_progress p) ++ "%".

(** Lines 251-259.  [Some response] once a reply carries the response;
    [None] when the script ends while the loop is still waiting for one. *)
Fixpoint upload_loop (progress_callback : option Callback)
         (script : list ChunkReply) : Py (option string) :=
  match script with
  | [] => ret None
  | reply :: rest =>
      notify progress_callback 30 "Uploading..." ;;;
      modify (log_network "next_chunk") ;;;
      match reply with
      | ChunkRaises e => raise e
      | Chunk status response =>
          match status with
          | Some p => notify progress_callback (chunk_percent p) (chunk_message p)
          | None => ret tt
          end ;;;
          match response with
          | Some r => ret (Some r)
          | None => upload_loop progress_callback rest
          end
      end
  end.

(** Line 244: [self.youtube_service.videos().insert(...)] builds the request;
    on a processor that was never authenticated the attribute lookup fails. *)
Definition videos_insert (body : Body) : Py unit :=
  service <- gets youtube_service ;;
  match service with
  | None => raise "'NoneType' object has no attribute 'videos'"
  | Some _ => ret tt
  end.

Definition upload_body (api : GoogleApi)
           (file_path title description category_id keywords privacy_status : string)
           (progress_callback : option Callback) : Py (option (bool * string)) :=
  notify progress_callback 10 "Starting upload..." ;;;
  let body := make_body title description category_id keywords privacy_status in
  match media_file_upload api file_path with
  | Some e => raise e
  | None =>
      notify progress_callback 20 "Initiating upload..." ;;;
      videos_insert body ;;;
      response <- upload_loop progress_callback (next_chunk api) ;;
      match response with
      | None => ret None
      | Some r =>
          notify progress_callback 100 "Upload complete!" ;;;
          ret (Some (true, r))
      end
  end.

(** [None] only when the script of [next_chunk] ends before a response. *)
Definition upload_video (api : GoogleApi)
           (file_path title description category_id keywords privacy_status : string)
           (progress_callback : option Callback) : Py (option (bool * string)) :=
  try_except
    (upload_body api file_path title description category_id keywords
                 privacy_status progress_callback)
    (fun e =>
       notify progress_callback 0 ("Error: " ++ e) ;;;
       ret (Some (false, "Upload failed: " ++ e))).

End Publisher.

(** ** The trigger of a publish: route [/api/upload] *)

Module Route.

Record Response := mkResponse {
  status_code : nat;
  success : bool;
  text : string
}.

(** [data.get(key, default)] on a field known to hold a string or be absent. *)
Definition get_default (o : option string) (default : string) : string :=
  match o with
  | Some s => s
  | None => default
  end.

(** The machine the routes run on, as they use it. *)
Record Host := mkHost {
  (* os.path.exists on a path string *)
  path_exists : string -> bool;
  (* os.path.exists on an integer, which it reads as a file descriptor: the
     answer, or the OverflowError of a descriptor out of range *)
  descriptor_exists : Z -> Outcome bool;
  (* MediaFileUpload(path, ...) on a path that is not a string: [Some e] when
     it raises *)
  media_on : Json.value -> option string;
  (* VideoFileClip(path) on a path that is not a string *)
  clip_on : Json.value -> Outcome (Q * (Z * Z))
}.

(** [os.path.exists(path)] on a JSON value: a string is a path, an integer or
    a bool a file descriptor, anything else raises TypeError. *)
Definition os_path_exists (host : Host) (path : Json.value) : Outcome bool :=
  match path with
  | Json.Str s => Returned (path_exists host s)
  | Json.Int n => descriptor_exists host n
  | Json.Bool b => descriptor_exists host (if b then 1 else 0)%Z
  | other =>
      Raised ("stat: path should be string, bytes, os.PathLike or integer, not "
                ++ Json.type_name other)
  end.

(** Line 360: [not video_path or not os.path.exists(video_path) or not title],
    evaluated from left to right. *)
Definition invalid_parameters (host : Host) (video_path title : Json.value)
  : Outcome bool :=
  if negb (Json.truthy video_path) then Returned true
  else match os_path_exists host video_path with
       | Raised e => Raised e
       | Returned false => Returned true
       | Returned true => Returned (negb (Json.truthy title))
       end.

(** Line 224 on a value of any type: [keywords.split(',') if keywords else []]. *)
Definition split_keywords (keywords : Json.value) : Outcome (list string) :=
  if Json.truthy keywords then
    match keywords with
    | Json.Str s => Returned (Publisher.split_comma s)
    | other =>
        Raised ("'" ++ Json.type_name other ++ "' object has no attribute 'split'")
    end
  else Returned [].

(** Lines 220-231 on values of any type. *)
Definition make_body (title description category_id privacy_status : Json.value)
           (tags : list string) : Json.value :=
  Json.Object
    [("snippet",
      Json.Object [("title", title);
                   ("description", description);
                   ("tags", Json.List (map Json.Str tags));
                   ("categoryId", category_id)]);
     ("status",
      Json.Object [("privacyStatus", privacy_status);
                   ("selfDeclaredMadeForKids", Json.Bool false)])].

(** Line 234 on a path of any type. *)
Definition media_file_upload (host : Host) (api : Publisher.GoogleApi)
           (file_path : Json.value) : option string :=
  match file_path with
  | Json.Str s => Publisher.media_file_upload api s
  | other => media_on host other
  end.

(** Line 244, as [Publisher.videos_insert]. *)
Definition videos_insert (body : Json.value) : Py unit :=
  service <- gets youtube_service ;;
  match service with
  | None => raise "'NoneType' object has no attribute 'videos'"
  | Some _ => ret tt
  end.

(** [processor.upload_video(...)], lines 213-269, as a route calls it: the
    arguments are the values of the request, of whatever type.  On strings
    it is [Publisher.upload_video]. *)
Definition processor_upload_video (host : Host) (api : Publisher.GoogleApi)
           (file_path title description category_id keywords privacy_status : Json.value)
           (progress_callback : option Callback) : Py (option (bool * string)) :=
  try_except
    (notify progress_callback 10 "Starting upload..." ;;;
     tags <- lift (split_keywords keywords) ;;
     let body := make_body title description category_id privacy_status tags in
     match media_file_upload host api file_path with
     | Some e => raise e
     | None =>
         notify progress_callback 20 "Initiating upload..." ;;;
         videos_insert body ;;;
         response <- Publisher.upload_loop progress_callback (Publisher.next_chunk api) ;;
         match response with
         | None => ret None
         | Some r =>
             notify progress_callback 100 "Upload complete!" ;;;
             ret (Some (true, r))
         end
     end)
    (fun e =>
       notify progress_callback 0 ("Error: " ++ e) ;;;
       ret (Some (false, "Upload failed: " ++ e))).

(** Lines 364-372: the task run by the background thread; its result is dropped. *)
Definition upload_task (host : Host) (api : Publisher.GoogleApi)
           (video_path title description tags privacy_status : Json.value) : Py unit :=
  try_except
    (processor_upload_video host api video_path title description (Json.Str "22")
                            tags privacy_status None ;;; ret tt)
    (fun _ => ret tt).

(** The title of a request; a body that is no object has none. *)
Definition title_of (body : Json.value) : Json.value :=
  match body with
  | Json.Object data => Json.get data "title" Json.Null
  | _ => Json.Null
  end.

(** Lines 350-381: the route, with the thread it starts run to its end.
    [get_json] is what [request.get_json()] returned. *)
Definition upload_video (host : Host) (api : Publisher.GoogleApi)
           (get_json : Json.value) : Py Response :=
  try_except
    (match get_json with
     | Json.Object data =>
         let video_path := Json.get data "video_path" Json.Null in
         let title := Json.get data "title" Json.Null in
         let description := Json.get data "description" (Json.Str "") in
         let tags := Json.get data "tags" (Json.Str "") in
         let privacy_status := Json.get data "privacy_status" (Json.Str "private") in
         invalid <- lift (invalid_parameters host video_path title) ;;
         if (invalid : bool)
         then ret (mkResponse 400 false "Invalid parameters")
         else upload_task host api video_path title description tags privacy_status ;;;
              ret (mkResponse 200 true "Upload started")
     | other =>
         raise ("'" ++ Json.type_name other ++ "' object has no attribute 'get'")
     end)
    (fun e => ret (mkResponse 500 false e)).

End Route.

(** ** Notions the properties are stated with *)

Module Spec.

(** [round(x)] as the specification writes it: the nearest integer, a tie
    going to the even neighbour (Python's [round]). *)
Definition round_half_even (x : Q) : Z :=
  let f := Qfloor x in
  let r := x - inject_Z f in
  if Qgtb (1 # 2) r then f
  else if Qgtb r (1 # 2) then (f + 1)%Z
  else if Z.even f then f else (f + 1)%Z.

(** One step of a progress sequence is in order when the percent does not
    go down, or when it is a reset to 0 that carries a message. *)
Definition step_in_order (prev : Q) (e : ProgressEvent) : bool :=
  orb (Qle_bool prev (percent e))
      (andb (Qeq_bool (percent e) 0) (str_truthy (message e))).

Fixpoint in_order_from (prev : Q) (events : list ProgressEvent) : bool :=
  match events with
  | [] => true
  | e :: rest => andb (step_in_order prev e) (in_order_from (percent e) rest)
  end.

(** The progress invariant of one stage invocation. *)
Definition progress_in_order (events : list ProgressEvent) : bool :=
  match events with
  | [] => true
  | e :: rest => in_order_from (percent e) rest
  end.

(** The events with percent 0, the terminal failure reports. *)
Definition failure_events (events : list ProgressEvent) : list ProgressEvent :=
  filter (fun e => Qeq_bool (percent e) 0) events.

(** The events reported for chunk acknowledgements (line 259), told from the
    loop-head event by their message. *)
Definition acknowledgement_events (events : list ProgressEvent) : list ProgressEvent :=
  filter (fun e => String.prefix "Uploading... " (message e)) events.

(** A crop rectangle that lies inside a frame of the given size. *)
Definition within_frame (width height : Z) (r : CropRect) : Prop :=
  (0 <= x1 r /\ x1 r <= x2 r /\ x2 r <= inject_Z width) /\
  (0 <= y1 r /\ y1 r <= y2 r /\ y2 r <= inject_Z height).

End Spec.

(** ** Concrete runs used below *)

Module Scenario.

Definition session : Credentials := mkCredentials 1 true false true.

(** A processor whose [authenticate_youtube] has succeeded. *)
Definition authenticated : World :=
  set_youtube_service (Some session) initial_world.

(** A disk on which token.pickle holds valid credentials. *)
Definition with_token : World := set_token_pickle (Some session) initial_world.

Definition oauth : Authenticator.OAuth :=
  Authenticator.mkOAuth
    (fun s => Returned s) (fun c => Returned c)
    (fun s => if String.eqb s "{}"
              then Some "Client secrets must be for a web or installed app."
              else None)
    (fun _ => Returned (mkCredentials 2 true false true)) (fun _ => None).

(** Five acknowledgements at 0, 25, 50, 75 and 100 percent, the response
    coming with the last one. *)
Definition mock_transport : Publisher.GoogleApi :=
  Publisher.mkGoogleApi (fun _ => None)
    [Publisher.Chunk (Some 0) None;
     Publisher.Chunk (Some (1 # 4)) None;
     Publisher.Chunk (Some (1 # 2)) None;
     Publisher.Chunk (Some (3 # 4)) None;
     Publisher.Chunk (Some 1) (Some "video-id")].

(** A file of two chunks: one acknowledgement at 50 percent, then the response. *)
Definition two_chunks : Publisher.GoogleApi :=
  Publisher.mkGoogleApi (fun _ => None)
    [Publisher.Chunk (Some (1 # 2)) None;
     Publisher.Chunk None (Some "video-id")].

(** A file that fits in one chunk. *)
Definition one_chunk : Publisher.GoogleApi :=
  Publisher.mkGoogleApi (fun _ => None) [Publisher.Chunk None (Some "video-id")].

(** A 1920x1080, 90 second file whose rendering fails. *)
Definition failing_render : Transformer.MoviePy :=
  Transformer.mkMoviePy (fun _ => Returned (90, (1920%Z, 1080%Z)))
                        (fun _ _ => Some "encoder failed").

(** A platform URL for which no progressive mp4 stream exists. *)
Definition no_stream : Fetcher.Transport :=
  Fetcher.mkTransport (fun _ => Returned None) (fun _ _ => Raised "no stream")
                      0 (fun _ _ => None).

(** A reachable direct URL, fetched when the clock reads [now]. *)
Definition generic_at (now : Q) : Fetcher.Transport :=
  Fetcher.mkTransport (fun _ => Returned None) (fun _ _ => Raised "no stream")
                      now (fun _ _ => None).

End Scenario.


(** ** The other triggers: routes [/api/download], [/api/process], [/api/authenticate] *)

Module Triggers.

(** The JSON objects of two requests, field by field ([None]: key absent). *)
Record DownloadRequest := mkDownloadRequest { req_url : option string }.

(** [data.get(...)] on a body that is not JSON: the handler of the route
    answers 500 with the text of the AttributeError. *)
Definition no_json : Route.Response :=
  Route.mkResponse 500 false "'NoneType' object has no attribute 'get'".

(** Lines 289-294: the task run by the background thread of /api/download. *)
Definition download_task (tr : Fetcher.Transport) (video_url : string) : Py unit :=
  try_except (Fetcher.download_video tr video_url None ;;; ret tt)
             (fun _ => ret tt).

(** Lines 279-303, with the thread it starts run to its end. *)
Definition download_video (tr : Fetcher.Transport)
           (get_json : option DownloadRequest) : Py Route.Response :=
  match get_json with
  | None => ret no_json
  | Some data =>
      if negb (opt_truthy (req_url data))
      then ret (Route.mkResponse 400 false "No URL provided")
      else download_task tr (Route.get_default (req_url data) "") ;;;
           ret (Route.mkResponse 200 true "Download started")
  end.

(** [processor.convert_to_shorts_format(video_path)], lines 94-169, as a route
    calls it: on the value of the request, of whatever type.  On a string it
    is [Transformer.convert_to_shorts_format]; on any other value the clip may
    load, and [os.path.basename] of line 142 then raises. *)
Definition processor_convert_to_shorts_format
           (host : Route.Host) (mp : Transformer.MoviePy)
           (video_path : Json.value) (progress_callback : option Callback)
  : Py (option string) :=
  match video_path with
  | Json.Str s => Transformer.convert_to_shorts_format mp s progress_callback
  | other =>
      try_except
        (notify progress_callback 10 "Loading video..." ;;;
         loaded <- lift (Route.clip_on host other) ;;
         modify (fun w => set_open_clips (S (open_clips w)) w) ;;;
         notify progress_callback 30 "Checking duration..." ;;;
         notify progress_callback 50 "Checking aspect ratio..." ;;;
         let '(width, height) := snd loaded in
         current <- lift (Transformer.current_aspect_ratio width height) ;;
         raise ("expected str, bytes or os.PathLike object, not "
                  ++ Json.type_name other))
        (fun e =>
           notify progress_callback 0 ("Error: " ++ e) ;;;
           ret None)
  end.

(** Lines 315-320: the task run by the background thread of /api/process. *)
Definition process_task (host : Route.Host) (mp : Transformer.MoviePy)
           (video_path : Json.value) : Py unit :=
  try_except (processor_convert_to_shorts_format host mp video_path None ;;; ret tt)
             (fun _ => ret tt).

(** Line 311: [not video_path or not os.path.exists(video_path)]. *)
Definition invalid_video_path (host : Route.Host) (video_path : Json.value)
  : Outcome bool :=
  if negb (Json.truthy video_path) then Returned true
  else match Route.os_path_exists host video_path with
       | Raised e => Raised e
       | Returned found => Returned (negb found)
       end.

(** Lines 305-329, with the thread it starts run to its end.  [get_json] is
    what [request.get_json()] returned. *)
Definition process_video (host : Route.Host) (mp : Transformer.MoviePy)
           (get_json : Json.value) : Py Route.Response :=
  try_except
    (match get_json with
     | Json.Object data =>
         let video_path := Json.get data "video_path" Json.Null in
         invalid <- lift (invalid_video_path host video_path) ;;
         if (invalid : bool)
         then ret (Route.mkResponse 400 false "Invalid video path")
         else process_task host mp video_path ;;;
              ret (Route.mkResponse 200 true "Processing started")
     | other =>
         raise ("'" ++ Json.type_name other ++ "' object has no attribute 'get'")
     end)
    (fun e => ret (Route.mkResponse 500 false e)).


End Triggers.

(** ** Further notions for the properties *)

Module Notions.

(** [",".join(pieces)] *)
Fixpoint join_comma (pieces : list string) : string :=
  match pieces with
  | [] => EmptyString
  | [s] => s
  | s :: rest => s ++ "," ++ join_comma rest
  end.

(** The number of commas of a string. *)
Fixpoint count_commas (s : string) : nat :=
  match s with
  | EmptyString => 0
  | String c rest => (if Ascii.eqb c ","%char then 1 else 0) + count_commas rest
  end.

(** A percent between 0 and 100. *)
Definition percent_in_range (e : ProgressEvent) : Prop :=
  0 <= percent e /\ percent e <= 100.

(** A reply of [next_chunk] that carries no response yet. *)
Definition pending (reply : Publisher.ChunkReply) : Prop :=
  exists status, reply = Publisher.Chunk status None.

(** A reply whose status, if any, reports a fraction between 0 and 1. *)
Definition fraction_reply (reply : Publisher.ChunkReply) : Prop :=
  match reply with
  | Publisher.ChunkRaises _ => True
  | Publisher.Chunk None _ => True
  | Publisher.Chunk (Some p) _ => 0 <= p /\ p <= 1
  end.

(** Does authentication have to ask the user?  Lines 188-196. *)
Definition needs_consent (stored : option Credentials) : bool :=
  match stored with
  | None => true
  | Some c => andb (negb (valid c)) (negb (andb (expired c) (refresh_token c)))
  end.

(** The statuses the upload loop meets: those of the replies up to the first
    one that carries a response or raises. *)
Fixpoint acknowledged (script : list Publisher.ChunkReply) : list Q :=
  match script with
  | [] => []
  | Publisher.ChunkRaises _ :: _ => []
  | Publisher.Chunk status response :: rest =>
      (match status with Some p => [p] | None => [] end)
        ++ (match response with Some _ => [] | None => acknowledged rest end)
  end.

(** The event line 259 sends for a status. *)
Definition acknowledgement (p : Q) : ProgressEvent :=
  (Publisher.progress_percent (Publisher.chunk_progress p),
   "Uploading... " ++ str_int (Publisher.chunk_progress p) ++ "%").

(** How far rounding can move a reported percent: 10^-12. *)
Definition eps : Q := 1 # 1000000000000.

(** The whole percents 0, 1, ..., 100. *)
Definition whole_percents : list Z := map Z.of_nat (seq 0 101).

(** A reported percent is within 10^-13 of 30 + 0.7 n and between 30 and 100. *)
Definition near_scale (n : Z) : bool :=
  let r := Publisher.progress_percent n in
  let exact := 30 + inject_Z n * (7 # 10) in
  andb (andb (Qle_bool (exact - (1 # 10000000000000)) r)
             (Qle_bool r (exact + (1 # 10000000000000))))
       (andb (Qle_bool 30 r) (Qle_bool r 100)).

(** The network log of [n] calls of [request.next_chunk()]. *)
Definition calls (n : nat) : list string := repeat "next_chunk" n.

End Notions.

(** ** Further concrete runs *)

Module Cases.

(** A json parser that rejects the empty payload. *)
Definition strict_oauth : Authenticator.OAuth :=
  Authenticator.mkOAuth
    (fun s => if str_truthy s then Returned s else Raised "Expecting value")
    (fun c => Returned c) (fun _ => None)
    (fun _ => Returned (mkCredentials 2 true false true)) (fun _ => None).

(** A user who refuses consent. *)
Definition consent_denied : Authenticator.OAuth :=
  Authenticator.mkOAuth
    (fun s => Returned s) (fun c => Returned c) (fun _ => None)
    (fun _ => Raised "access_denied") (fun _ => None).

(** Stored credentials that have expired and carry a refresh token. *)
Definition expired_session : Credentials := mkCredentials 1 false true true.

Definition refreshed_session : Credentials := mkCredentials 1 true false true.

Definition with_expired_token : World :=
  set_token_pickle (Some expired_session) initial_world.

(** A platform on which refreshing succeeds. *)
Definition refreshing_oauth : Authenticator.OAuth :=
  Authenticator.mkOAuth
    (fun s => Returned s) (fun _ => Returned refreshed_session) (fun _ => None)
    (fun _ => Raised "access_denied") (fun _ => None).

(** An upload interrupted on its second chunk. *)
Definition interrupted : Publisher.GoogleApi :=
  Publisher.mkGoogleApi (fun _ => None)
    [Publisher.Chunk (Some (1 # 4)) None;
     Publisher.ChunkRaises "Connection reset by peer";
     Publisher.Chunk None (Some "video-id")].

(** A file acknowledged at a third, then finished. *)
Definition one_third : Publisher.GoogleApi :=
  Publisher.mkGoogleApi (fun _ => None)
    [Publisher.Chunk (Some (1 # 3)) None;
     Publisher.Chunk None (Some "video-id")].

(** A machine on which every path exists and no descriptor is open. *)
Definition host : Route.Host :=
  Route.mkHost (fun _ => true) (fun _ => Returned false)
               (fun v => Some ("expected str, bytes or os.PathLike object, not "
                                 ++ Json.type_name v))
               (fun v => Raised ("expected str, bytes or os.PathLike object, not "
                                   ++ Json.type_name v)).

(** A publish request, a publish request with an empty title, and one with
    an empty title whose video_path is a list. *)
Definition publish_request : Json.value :=
  Json.Object [("video_path", Json.Str "processed/shorts_a.mp4");
               ("title", Json.Str "My short")].

Definition untitled_request : Json.value :=
  Json.Object [("video_path", Json.Str "processed/shorts_a.mp4");
               ("title", Json.Str "")].

Definition untitled_list_request : Json.value :=
  Json.Object [("video_path", Json.List [Json.Str "processed/shorts_a.mp4"]);
               ("title", Json.Str "")].

(** A file that cannot be opened for upload. *)
Definition unreadable : Publisher.GoogleApi :=
  Publisher.mkGoogleApi (fun _ => Some "No such file or directory")
                        [Publisher.Chunk None (Some "video-id")].

(** The clip rendered from a 1920x1080 source longer than a minute. *)
Definition trimmed_wide_clip : Clip :=
  mkClip (Transformer.max_duration - 0) (1920%Z, 1080%Z)
         (Some (mkCropRect (Transformer.crop_x1 1920 1080) 0
                           (Transformer.crop_x2 1920 1080) (inject_Z 1080))).

End Cases.

(** ** Proof automation *)

Import Transformer Fetcher Authenticator Publisher.
Import Notions.

(** Unfolds the monad so that a stage reduces to its effect on the world. *)
Ltac run_py :=
  unfold try_except, bind, notify, recorder, modify, gets, lift, ret, raise.

(** Cases on the answer of the rendering oracle, whatever it is applied to. *)
Ltac case_write_videofile :=
  match goal with
  | |- context [write_videofile ?m ?c ?p] => destruct (write_videofile m c p)
  end.

(** Unfolds the authenticator down to the monad. *)
Ltac run_auth :=
  unfold authenticate_youtube, authenticate_body, ensure_valid, consent; run_py.

(** Cases on the stored credentials and on every answer of the OAuth oracles. *)
Ltac auth_cases oa info c :=
  try destruct (valid c); cbn;
  try (destruct (expired c), (refresh_token c); cbn);
  repeat match goal with
    | |- context [build oa ?x] => destruct (build oa x); cbn
    | |- context [refresh oa ?x] => destruct (refresh oa x); cbn
    | |- context [from_client_secrets_file oa ?x] =>
        destruct (from_client_secrets_file oa x); cbn
    | |- context [run_local_server oa ?x] => destruct (run_local_server oa x); cbn
    end.

(** * Properties *)

(** ** Comparison and rounding lemmas *)

Lemma Qgtb_true (a b : Q) : Qgtb a b = true <-> b < a.
Proof.
  unfold Qgtb. rewrite negb_true_iff. split; intro H.
  - apply Qnot_le_lt. intro Hle. apply Qle_bool_iff in Hle. congruence.
  - destruct (Qle_bool a b) eqn:E; [|reflexivity].
    apply Qle_bool_iff in E. exfalso. apply (Qlt_not_le _ _ H E).
Qed.

Lemma Qgtb_false (a b : Q) : Qgtb a b = false <-> a <= b.
Proof.
  unfold Qgtb. rewrite negb_false_iff. apply Qle_bool_iff.
Qed.

Lemma py_int_floor (n : Z) (d : positive) :
  (0 <= n)%Z -> py_int (n # d) = (n / Zpos d)%Z.
Proof.
  intros Hn. unfold py_int. cbn [Qnum Qden].
  apply Z.quot_div_nonneg; lia.
Qed.

(** ** Crop arithmetic of the transformer *)


Lemma ratio_gt_target (width height : Z) :
  (0 < height)%Z ->
  (target_aspect_ratio < inject_Z width / inject_Z height
   <-> (9 * height < 16 * width)%Z).
Proof.
  intros Hh. destruct height as [|p|p]; try lia.
  unfold target_aspect_ratio, Qlt, Qdiv, Qmult, Qinv, inject_Z.
  cbn [Qnum Qden]. lia.
Qed.

Lemma new_width_floor (height : Z) :
  (0 <= height)%Z -> new_width height = (9 * height / 16)%Z.
Proof.
  intros Hh. unfold new_width, target_aspect_ratio, Qmult, inject_Z.
  cbn [Qnum Qden]. rewrite py_int_floor by lia. f_equal. lia.
Qed.

Lemma new_height_floor (width : Z) :
  (0 <= width)%Z -> new_height width = (16 * width / 9)%Z.
Proof.
  intros Hw. unfold new_height, target_aspect_ratio, Qdiv, Qmult, Qinv, inject_Z.
  cbn [Qnum Qden]. rewrite py_int_floor by lia. f_equal. lia.
Qed.

(** A span of [b] centred in [0, a] stays inside it when [b <= a]. *)
Lemma centred_span (a b : Z) :
  (0 <= b <= a)%Z ->
  0 <= inject_Z a / 2 - inject_Z b / 2 /\
  inject_Z a / 2 - inject_Z b / 2 <= inject_Z a / 2 + inject_Z b / 2 /\
  inject_Z a / 2 + inject_Z b / 2 <= inject_Z a.
Proof.
  intros [H0 Hab].
  assert (Hb : inject_Z 0 <= inject_Z b) by (rewrite <- Zle_Qle; lia).
  assert (Ha : inject_Z b <= inject_Z a) by (rewrite <- Zle_Qle; lia).
  change (inject_Z 0) with 0 in Hb.
  generalize dependent (inject_Z a). generalize dependent (inject_Z b).
  intros qb Hb qa Ha.
  unfold Qdiv. change (/ 2) with (1 # 2).
  repeat split; lra.
Qed.

Lemma centred_width (a b : Z) :
  (inject_Z a / 2 + inject_Z b / 2) - (inject_Z a / 2 - inject_Z b / 2) == inject_Z b /\
  (inject_Z a / 2 - inject_Z b / 2) + (inject_Z a / 2 + inject_Z b / 2) == inject_Z a.
Proof.
  generalize (inject_Z a) (inject_Z b). intros qa qb.
  unfold Qdiv. change (/ 2) with (1 # 2).
  split; ring.
Qed.

Lemma current_ratio_inv (width height : Z) (current : Q) :
  current_aspect_ratio width height = Returned current ->
  height <> 0%Z /\ current = inject_Z width / inject_Z height.
Proof.
  unfold current_aspect_ratio.
  destruct (Z.eqb_spec height 0); intros H; [discriminate|].
  inversion H. auto.
Qed.

(** Every rectangle [crop_rect] produces lies inside the source frame. *)
Lemma crop_rect_within_frame (width height : Z) (current : Q) (r : CropRect) :
  (0 < width)%Z -> (0 < height)%Z ->
  current_aspect_ratio width height = Returned current ->
  crop_rect width height current = Some r ->
  Spec.within_frame width height r.
Proof.
  intros Hw Hh Hcur Hrect.
  apply current_ratio_inv in Hcur. destruct Hcur as [_ ->].
  assert (Hqw : 0 <= inject_Z width)
    by (change 0 with (inject_Z 0); rewrite <- Zle_Qle; lia).
  assert (Hqh : 0 <= inject_Z height)
    by (change 0 with (inject_Z 0); rewrite <- Zle_Qle; lia).
  unfold crop_rect in Hrect.
  destruct (needs_crop _); [|discriminate].
  destruct (too_wide _) eqn:Hwide; inversion Hrect; subst r; clear Hrect;
    unfold Spec.within_frame; cbn [x1 x2 y1 y2].
  - (* too wide: 9 * height < 16 * width, so the new width fits *)
    apply Qgtb_true, ratio_gt_target in Hwide; [|assumption].
    split; [|repeat split; auto using Qle_refl].
    unfold crop_x1, crop_x2, x_center. apply centred_span.
    rewrite new_width_floor by lia. split.
    + apply Z.div_pos; lia.
    + apply Z.div_le_upper_bound; lia.
  - (* too tall: 16 * width <= 9 * height, so the new height fits *)
    apply Qgtb_false in Hwide.
    assert (Hz : (16 * width <= 9 * height)%Z).
    { destruct (Z_le_gt_dec (16 * width) (9 * height)) as [Hle|Hgt]; [exact Hle|].
      exfalso.
      apply (Qlt_not_le _ _ (proj2 (ratio_gt_target width height Hh) ltac:(lia)) Hwide). }
    split; [repeat split; auto using Qle_refl|].
    unfold crop_y1, crop_y2, y_center. apply centred_span.
    rewrite new_height_floor by lia. split.
    + apply Z.div_pos; lia.
    + apply Z.div_le_upper_bound; lia.
Qed.

(** C1, as the specification states it, fails on the 1920x1080 scenario:
    [round(1080 * 9/16)] is 608, the width the stage computes is 607. *)
Lemma C1_round_counterexample :
  Spec.round_half_even (inject_Z 1080 * target_aspect_ratio) = 608%Z /\
  new_width 1080 = 607%Z /\
  new_width 1080 <> Spec.round_half_even (inject_Z 1080 * target_aspect_ratio).
Proof.
  repeat split; try reflexivity. vm_compute. discriminate.
Qed.

(** C1 (amended).  For every source that loads and renders and whose aspect
    ratio exceeds 9/16 by more than the tolerance, convert_to_shorts_format
    renders one clip of at most 60 seconds, cropped to a rectangle of width
    [int(height * 9/16)] = floor(9 * height / 16), centred horizontally, over
    the full height.  For the 1920x1080, 90-second source the clip lasts 60
    seconds and the rectangle runs from x = 656.5 to x = 1263.5, 607 wide,
    over the full height 1080. *)
Theorem C1_too_wide_crop_truncates :
  (forall (d : Q) (width height : Z) (current : Q) (video_path : string),
      (0 < height)%Z ->
      current_aspect_ratio width height = Returned current ->
      needs_crop current = true ->
      too_wide current = true ->
      let output_path :=
        os_path_join PROCESSED_FOLDER ("shorts_" ++ os_path_basename video_path) in
      exists w clip r,
        convert_to_shorts_format (healthy d width height) video_path
                                 (Some recorder) initial_world
        = (Returned (Some output_path), w) /\
        written w = [(output_path, clip)] /\
        duration clip <= max_duration /\
        cropped_to clip = Some r /\
        new_width height = (9 * height / 16)%Z /\
        x2 r - x1 r == inject_Z (new_width height) /\
        x1 r + x2 r == inject_Z width /\
        y1 r == 0 /\ y2 r == inject_Z height) /\
  (forall video_path : string,
      let output_path :=
        os_path_join PROCESSED_FOLDER ("shorts_" ++ os_path_basename video_path) in
      exists w clip r,
        convert_to_shorts_format (healthy 90 1920 1080) video_path
                                 (Some recorder) initial_world
        = (Returned (Some output_path), w) /\
        written w = [(output_path, clip)] /\
        duration clip == 60 /\
        cropped_to clip = Some r /\
        x1 r == 1313 # 2 /\ x2 r == 2527 # 2 /\
        x2 r - x1 r == 607 /\
        y1 r == 0 /\ y2 r == 1080).
Proof.
  split.
  - intros d width height current video_path Hh Hcur Hneeds Hwide output_path.
    unfold convert_to_shorts_format, convert_body, healthy. run_py.
    cbn [video_file_clip write_videofile fst snd duration].
    destruct (Qgtb d max_duration) eqn:Hd; cbn [size subclip duration cropped_to];
      rewrite Hcur; unfold adjust_aspect_ratio, crop_rect; rewrite Hneeds, Hwide;
      (eexists; eexists; eexists; split; [reflexivity|]);
      (split; [reflexivity|]);
      cbn [duration subclip crop cropped_to x1 x2 y1 y2];
      destruct (centred_width width (new_width height)) as [Hw Hc].
    + split; [unfold max_duration; lra|].
      split; [reflexivity|]. split; [apply new_width_floor; lia|].
      unfold crop_x1, crop_x2, x_center. repeat split; try assumption; reflexivity.
    + split; [apply Qgtb_false; exact Hd|].
      split; [reflexivity|]. split; [apply new_width_floor; lia|].
      unfold crop_x1, crop_x2, x_center. repeat split; try assumption; reflexivity.
  - intros video_path output_path.
    eexists; eexists; eexists.
    split; [vm_compute; reflexivity|].
    split; [vm_compute; reflexivity|].
    split; [vm_compute; reflexivity|].
    split; [vm_compute; reflexivity|].
    repeat split; vm_compute; reflexivity.
Qed.

Lemma C1_too_wide_crop_witness :
  exists w clip r,
    convert_to_shorts_format (healthy 90 1920 1080) "uploads/a.mp4"
                             (Some recorder) initial_world
    = (Returned (Some "processed/shorts_a.mp4"), w) /\
    written w = [("processed/shorts_a.mp4", clip)] /\
    duration clip <= max_duration /\
    cropped_to clip = Some r /\
    new_width 1080 = (9 * 1080 / 16)%Z /\
    x2 r - x1 r == inject_Z (new_width 1080) /\
    x1 r + x2 r == inject_Z 1920 /\
    y1 r == 0 /\ y2 r == inject_Z 1080.
Proof.
  apply (proj1 C1_too_wide_crop_truncates 90 1920%Z 1080%Z
           (inject_Z 1920 / inject_Z 1080) "uploads/a.mp4");
    [lia | reflexivity | reflexivity | reflexivity].
Defined.

(** C2.  For every source of positive width and height, the rectangle the
    stage computes when it decides to crop lies inside the frame: each origin
    is at least 0, each far coordinate is at most the source dimension, and
    the origin is not beyond the far side.  The same holds of the rectangle
    of every clip the stage hands to the encoder. *)
Theorem C2_crop_rectangle_within_frame :
  forall (mp : MoviePy) (video_path : string) (d : Q) (width height : Z),
    (0 < width)%Z -> (0 < height)%Z ->
    video_file_clip mp video_path = Returned (d, (width, height)) ->
    (forall (current : Q) (r : CropRect),
        current_aspect_ratio width height = Returned current ->
        crop_rect width height current = Some r ->
        Spec.within_frame width height r) /\
    (forall (output_path : string) (clip : Clip) (r : CropRect),
        In (output_path, clip)
           (written (snd (convert_to_shorts_format mp video_path (Some recorder)
                                                   initial_world))) ->
        cropped_to clip = Some r ->
        Spec.within_frame width height r).
Proof.
  intros mp video_path d width height Hw Hh Hload. split.
  - intros current r. apply crop_rect_within_frame; assumption.
  - intros output_path clip r.
    unfold convert_to_shorts_format, convert_body. run_py.
    rewrite Hload. cbn [fst snd duration].
    assert (Hcur : current_aspect_ratio width height
                   = Returned (inject_Z width / inject_Z height)).
    { unfold current_aspect_ratio.
      destruct (Z.eqb_spec height 0); [lia | reflexivity]. }
    destruct (Qgtb d max_duration); cbn [size subclip]; rewrite Hcur;
      case_write_videofile; cbn; try tauto;
      (intros [Heq | []]; inversion Heq; subst clip; clear Heq);
      unfold adjust_aspect_ratio;
      destruct (crop_rect width height (inject_Z width / inject_Z height)) eqn:Hrect;
      cbn; intros Hr; inversion Hr; subst;
      eapply crop_rect_within_frame; eassumption.
Qed.

Lemma C2_crop_rectangle_witness :
  Spec.within_frame 1920 1080
    (mkCropRect (crop_x1 1920 1080) 0 (crop_x2 1920 1080) (inject_Z 1080)).
Proof.
  apply (proj1 (C2_crop_rectangle_within_frame (healthy 90 1920 1080) "uploads/a.mp4"
                  90 1920%Z 1080%Z ltac:(lia) ltac:(lia) eq_refl)
               (inject_Z 1920 / inject_Z 1080)); reflexivity.
Defined.

(** ** Progress sequences *)

(** The fetcher reports in order, whatever the transport does. *)
Lemma download_progress_in_order (tr : Transport) (url : string) :
  Spec.progress_in_order
    (progress_log (snd (download_video tr url (Some recorder) initial_world))) = true.
Proof.
  unfold download_video, download_body. run_py.
  cbn. destruct (is_youtube_url url).
  - cbn. destruct (first_stream tr url) as [[st|]|e]; cbn; try reflexivity.
    destruct (stream_download tr st UPLOAD_FOLDER); reflexivity.
  - cbn. destruct (urlretrieve tr url _); reflexivity.
Qed.

(** The transformer reports in order, whatever moviepy does. *)
Lemma convert_progress_in_order (mp : MoviePy) (video_path : string) :
  Spec.progress_in_order
    (progress_log (snd (convert_to_shorts_format mp video_path (Some recorder)
                                                 initial_world))) = true.
Proof.
  unfold convert_to_shorts_format, convert_body. run_py.
  cbn. destruct (video_file_clip mp video_path) as [[d [width height]]|e];
    cbn; try reflexivity.
  destruct (Qgtb d max_duration); cbn.
  all: destruct (current_aspect_ratio width height); cbn; try reflexivity.
  all: case_write_videofile; reflexivity.
Qed.

(** C3 fails on the publisher.  For a two-chunk upload (an acknowledgement at
    50 percent, then the response) upload_video reports 10, 20, 30, 65, 30,
    100: the loop reports 30 again before every chunk, so the percent falls
    from 65 to 30 on a successful run, with the message "Uploading..." and no
    error. *)
Theorem C3_upload_progress_drops :
  exists w,
    upload_video Scenario.two_chunks "processed/shorts_a.mp4" "My short" "" "22" ""
                 "private" (Some recorder) Scenario.authenticated
    = (Returned (Some (true, "video-id")), w) /\
    map (fun e => Qred (percent e)) (progress_log w) = [10; 20; 30; 65; 30; 100] /\
    nth 4 (progress_log w) (0, "") = (30, "Uploading...") /\
    Spec.progress_in_order (progress_log w) = false.
Proof.
  eexists. repeat split; vm_compute; reflexivity.
Qed.

(** ** Release of the clip *)

(** On the success path the clip opened by the stage is closed again. *)
Lemma convert_success_closes_clip (mp : MoviePy) (video_path out : string)
      (cb : option Callback) (w w' : World) :
  cb = None \/ cb = Some recorder ->
  convert_to_shorts_format mp video_path cb w = (Returned (Some out), w') ->
  open_clips w' = open_clips w.
Proof.
  intros Hcb.
  unfold convert_to_shorts_format, convert_body. run_py.
  destruct Hcb as [-> | ->]; cbn;
    (destruct (video_file_clip mp video_path) as [[d [width height]]|e];
     cbn; [|discriminate]);
    destruct (Qgtb d max_duration); cbn;
    (destruct (current_aspect_ratio width height); cbn; [|discriminate]);
    (case_write_videofile; cbn; [discriminate|]);
    intros H; inversion H; reflexivity.
Qed.

(** C4 fails when rendering raises.  The stage loads the clip, the encoder
    fails, the handler reports 0 percent and returns None, and the clip that
    was opened is still open: [clip.close()] is reached on the success path
    only. *)
Theorem C4_clip_left_open_when_render_fails :
  exists w,
    convert_to_shorts_format Scenario.failing_render "uploads/a.mp4"
                             (Some recorder) initial_world
    = (Returned None, w) /\
    last (progress_log w) (100, "") = (0, "Error: encoder failed") /\
    open_clips initial_world = 0%nat /\
    open_clips w = 1%nat.
Proof.
  eexists. repeat split; vm_compute; reflexivity.
Qed.

(** ** Progress of a chunked upload *)

Lemma py_int_Qfloor (x : Q) : 0 <= x -> py_int x = Qfloor x.
Proof.
  destruct x as [n d]. intros H. unfold Qle in H. cbn in H.
  rewrite py_int_floor by lia. reflexivity.
Qed.

(** ** Rounding to doubles *)

Section DoubleRounding.
Import Doubles.

Lemma floor_bounds (y : Q) :
  inject_Z (Qfloor y) <= y /\ y < inject_Z (Qfloor y) + 1.
Proof.
  split; [apply Qfloor_le|].
  pose proof (Qlt_floor y) as H. rewrite inject_Z_plus in H. exact H.
Qed.

(** Rounding to the nearest integer moves a number by at most one half. *)
Lemma nearest_even_error (y : Q) :
  y - (1 # 2) <= inject_Z (nearest_even y) /\ inject_Z (nearest_even y) <= y + (1 # 2).
Proof.
  unfold nearest_even. destruct (floor_bounds y) as [Hlo Hhi].
  destruct (Qcompare_spec (y - inject_Z (Qfloor y)) (1 # 2)) as [He|Hl|Hg].
  - destruct (Z.even (Qfloor y)); [|rewrite inject_Z_plus; change (inject_Z 1) with 1];
      split; lra.
  - split; lra.
  - rewrite inject_Z_plus. change (inject_Z 1) with 1. split; lra.
Qed.

Lemma nearest_even_cases (y : Q) :
  nearest_even y = Qfloor y \/ nearest_even y = (Qfloor y + 1)%Z.
Proof.
  unfold nearest_even.
  destruct (Qcompare (y - inject_Z (Qfloor y)) (1 # 2)); auto.
  destruct (Z.even (Qfloor y)); auto.
Qed.

(** It never crosses an integer. *)
Lemma nearest_even_le_int (y : Q) (N : Z) :
  y <= inject_Z N -> (nearest_even y <= N)%Z.
Proof.
  intros H. destruct (floor_bounds y) as [Hlo Hhi].
  assert (Hf : (Qfloor y <= N)%Z) by (rewrite Zle_Qle; lra).
  destruct (Z.eq_dec (Qfloor y) N) as [Heq|Hne].
  - assert (Hy : y == inject_Z N) by (rewrite <- Heq in *; lra).
    unfold nearest_even. rewrite Heq.
    destruct (Qcompare_spec (y - inject_Z N) (1 # 2)) as [He|Hl|Hg]; try lra.
    lia.
  - destruct (nearest_even_cases y) as [-> | ->]; lia.
Qed.

Lemma nearest_even_ge_int (y : Q) (N : Z) :
  inject_Z N <= y -> (N <= nearest_even y)%Z.
Proof.
  intros H.
  assert (Hf : (N <= Qfloor y)%Z).
  { rewrite <- (Qfloor_Z N). apply Qfloor_resp_le. exact H. }
  destruct (nearest_even_cases y) as [-> | ->]; lia.
Qed.

Lemma pow2_pos (e : Z) : 0 < pow2 e.
Proof. apply Qpower_0_lt. reflexivity. Qed.

Lemma pow2_plus (a b : Z) : pow2 (a + b) == pow2 a * pow2 b.
Proof. apply Qpower_plus. discriminate. Qed.

Lemma pow2_succ (a : Z) : pow2 (a + 1) == 2 * pow2 a.
Proof. rewrite pow2_plus. change (pow2 1) with 2. ring. Qed.

Lemma pow2_le (a b : Z) : (a <= b)%Z -> pow2 a <= pow2 b.
Proof. intros H. apply Qpower_le_compat_l; [exact H | discriminate]. Qed.

Lemma pow2_lt_inv (a b : Z) : pow2 a < pow2 b -> (a < b)%Z.
Proof. intros H. apply (Qpower_lt_compat_l_inv 2); [exact H | reflexivity]. Qed.

Lemma pow2_of_nonneg (a : Z) : (0 <= a)%Z -> pow2 a == inject_Z (2 ^ a).
Proof. intros H. unfold pow2. rewrite Zpower_Qpower by exact H. reflexivity. Qed.

Lemma log2_bounds (n : positive) :
  pow2 (Z.log2 (Zpos n)) <= inject_Z (Zpos n) /\
  inject_Z (Zpos n) < pow2 (Z.log2 (Zpos n) + 1).
Proof.
  pose proof (Z.log2_spec (Zpos n) ltac:(lia)) as [Hlo Hhi].
  pose proof (Z.log2_nonneg (Zpos n)) as Hnn.
  rewrite !pow2_of_nonneg by lia.
  split; [rewrite <- Zle_Qle; exact Hlo | rewrite <- Zlt_Qlt].
  replace (Z.log2 (Zpos n) + 1)%Z with (Z.succ (Z.log2 (Zpos n))) by lia. exact Hhi.
Qed.

(** [exponent] is the binary exponent. *)
Lemma exponent_spec (x : Q) :
  0 < x -> pow2 (exponent x) <= x /\ x < pow2 (exponent x + 1).
Proof.
  intros Hx. destruct x as [n d].
  assert (Hn : (0 < n)%Z) by (unfold Qlt in Hx; cbn in Hx; lia).
  destruct n as [|n|n]; try lia. clear Hn.
  unfold exponent. cbn [Qnum Qden].
  set (a := Z.log2 (Zpos n)). set (b := Z.log2 (Zpos d)).
  destruct (log2_bounds n) as [Ha1 Ha2]. destruct (log2_bounds d) as [Hb1 Hb2].
  fold a in Ha1, Ha2. fold b in Hb1, Hb2.
  assert (Hxd : (Zpos n # d) * inject_Z (Zpos d) == inject_Z (Zpos n)).
  { unfold Qeq, Qmult, inject_Z. cbn [Qnum Qden]. lia. }
  set (x := Zpos n # d) in *.
  pose proof (pow2_pos b) as Hpb. pose proof (pow2_pos (a - b)) as Hpe.
  assert (Ea : pow2 a == pow2 (a - b) * pow2 b).
  { rewrite <- pow2_plus. replace (a - b + b)%Z with a by lia. reflexivity. }
  assert (Ea1 : pow2 (a + 1) == pow2 (a - b + 1) * pow2 b).
  { rewrite <- pow2_plus. replace (a - b + 1 + b)%Z with (a + 1)%Z by lia. reflexivity. }
  assert (Eb1 : pow2 (b + 1) == 2 * pow2 b) by apply pow2_succ.
  assert (Ee1 : pow2 (a - b + 1) == 2 * pow2 (a - b)) by apply pow2_succ.
  assert (Ee0 : pow2 (a - b) == 2 * pow2 (a - b - 1)).
  { rewrite <- pow2_succ. replace (a - b - 1 + 1)%Z with (a - b)%Z by lia. reflexivity. }
  assert (Hupper : x < pow2 (a - b + 1)).
  { apply Qnot_le_lt. intros Hle.
    assert (pow2 (a - b + 1) * pow2 b <= x * inject_Z (Zpos d)) by nra. lra. }
  assert (Hlower : pow2 (a - b - 1) < x).
  { apply Qnot_le_lt. intros Hle.
    assert (x * inject_Z (Zpos d) < pow2 (a - b - 1) * pow2 (b + 1)) by nra.
    rewrite Eb1 in H. nra. }
  destruct (Qle_bool (pow2 (a - b)) x) eqn:Hc.
  - apply Qle_bool_iff in Hc. split; assumption.
  - assert (Hlt : x < pow2 (a - b)).
    { apply Qnot_le_lt. intros Hle. apply Qle_bool_iff in Hle. congruence. }
    replace (a - b - 1 + 1)%Z with (a - b)%Z by lia.
    split; [apply Qlt_le_weak; exact Hlower | exact Hlt].
Qed.

Lemma exponent_mono (x y : Q) :
  0 < x -> x <= y -> (exponent x <= exponent y)%Z.
Proof.
  intros Hx Hxy.
  destruct (exponent_spec x Hx) as [Hlo _].
  destruct (exponent_spec y ltac:(lra)) as [_ Hhi].
  assert (H : pow2 (exponent x) < pow2 (exponent y + 1)) by lra.
  apply pow2_lt_inv in H. lia.
Qed.

Lemma fl_pos (x : Q) :
  0 < x ->
  fl x == inject_Z (nearest_even (x / pow2 (exponent x - 52))) * pow2 (exponent x - 52).
Proof.
  intros Hx. unfold fl. destruct x as [[|n|n] d]; try (unfold Qlt in Hx; cbn in Hx; lia).
  cbn [Qnum]. unfold round_pos. apply Qred_correct.
Qed.

Lemma fl_zero (x : Q) : x == 0 -> fl x = 0.
Proof.
  intros H. unfold fl. destruct x as [[|n|n] d]; try reflexivity;
    unfold Qeq in H; cbn in H; lia.
Qed.

(** Scaled by its quantum, a positive number lies between 2^52 and 2^53. *)
Lemma scaled_bounds (x : Q) :
  0 < x ->
  pow2 52 <= x / pow2 (exponent x - 52) /\ x / pow2 (exponent x - 52) < pow2 53.
Proof.
  intros Hx. destruct (exponent_spec x Hx) as [Hlo Hhi].
  pose proof (pow2_pos (exponent x - 52)) as Hq.
  assert (E0 : pow2 (exponent x) == pow2 52 * pow2 (exponent x - 52)).
  { rewrite <- pow2_plus. replace (52 + (exponent x - 52))%Z with (exponent x) by lia.
    reflexivity. }
  assert (E1 : pow2 (exponent x + 1) == pow2 53 * pow2 (exponent x - 52)).
  { rewrite <- pow2_plus. replace (53 + (exponent x - 52))%Z with (exponent x + 1)%Z by lia.
    reflexivity. }
  split.
  - apply Qle_shift_div_l; [exact Hq | lra].
  - apply Qlt_shift_div_r; [exact Hq | lra].
Qed.

(** Rounding stays within the binade of the number. *)
Lemma fl_between_powers (x : Q) :
  0 < x -> pow2 (exponent x) <= fl x /\ fl x <= pow2 (exponent x + 1).
Proof.
  intros Hx. rewrite (fl_pos x Hx).
  destruct (scaled_bounds x Hx) as [Hlo Hhi].
  pose proof (pow2_pos (exponent x - 52)) as Hq.
  set (q := pow2 (exponent x - 52)) in *.
  assert (E0 : pow2 (exponent x) == inject_Z (2 ^ 52) * q).
  { rewrite <- pow2_of_nonneg by lia. unfold q. rewrite <- pow2_plus.
    replace (52 + (exponent x - 52))%Z with (exponent x) by lia. reflexivity. }
  assert (E1 : pow2 (exponent x + 1) == inject_Z (2 ^ 53) * q).
  { rewrite <- pow2_of_nonneg by lia. unfold q. rewrite <- pow2_plus.
    replace (53 + (exponent x - 52))%Z with (exponent x + 1)%Z by lia. reflexivity. }
  rewrite E0, E1.
  assert (H52 : (2 ^ 52 <= nearest_even (x / q))%Z).
  { apply nearest_even_ge_int. rewrite <- pow2_of_nonneg by lia. exact Hlo. }
  assert (H53 : (nearest_even (x / q) <= 2 ^ 53)%Z).
  { apply nearest_even_le_int. rewrite <- pow2_of_nonneg by lia. lra. }
  rewrite Zle_Qle in H52, H53. split; nra.
Qed.

(** Rounding never crosses a double: below a double it stays below. *)
Lemma fl_le_representable (x c : Q) :
  0 < x -> x <= c -> representable c -> fl x <= c.
Proof.
  intros Hx Hxc [K HK].
  assert (Hc : 0 < c) by lra.
  pose proof (exponent_mono x c Hx Hxc) as Hmono.
  destruct (Z.eq_dec (exponent x) (exponent c)) as [Heq|Hne].
  - rewrite (fl_pos x Hx), Heq.
    pose proof (pow2_pos (exponent c - 52)) as Hq.
    set (q := pow2 (exponent c - 52)) in *.
    assert (HxK : x / q <= inject_Z K).
    { apply Qle_shift_div_r; [exact Hq | lra]. }
    apply nearest_even_le_int in HxK. rewrite Zle_Qle in HxK.
    rewrite HK. nra.
  - destruct (fl_between_powers x Hx) as [_ Hhi].
    destruct (exponent_spec c Hc) as [Hlo _].
    assert (pow2 (exponent x + 1) <= pow2 (exponent c)) by (apply pow2_le; lia).
    lra.
Qed.

Lemma fl_nonneg (x : Q) : 0 <= x -> 0 <= fl x.
Proof.
  intros Hx. destruct (Qlt_le_dec 0 x) as [Hpos|Hle].
  - destruct (fl_between_powers x Hpos) as [Hlo _].
    pose proof (pow2_pos (exponent x)). lra.
  - rewrite (fl_zero x) by lra. lra.
Qed.

(** One rounding moves a number by at most its 2^-53 part. *)
Lemma fl_error (x : Q) :
  0 <= x ->
  x - x * unit_roundoff <= fl x /\ fl x <= x + x * unit_roundoff.
Proof.
  intros Hx. unfold unit_roundoff. destruct (Qlt_le_dec 0 x) as [Hpos|Hle].
  2:{ rewrite (fl_zero x) by lra. assert (x == 0) by lra.
      rewrite H. split; ring_simplify; lra. }
  rewrite (fl_pos x Hpos).
  destruct (exponent_spec x Hpos) as [Hlo _].
  pose proof (pow2_pos (exponent x - 52)) as Hq.
  set (q := pow2 (exponent x - 52)) in *.
  destruct (nearest_even_error (x / q)) as [H1 H2].
  assert (Exq : x / q * q == x) by (field; lra).
  assert (Eh : pow2 (exponent x) * pow2 (-53) == (1 # 2) * q).
  { unfold q. rewrite <- pow2_plus.
    replace (exponent x + -53)%Z with (exponent x - 52 + -1)%Z by lia.
    rewrite pow2_plus. change (pow2 (-1)) with (1 # 2). ring. }
  pose proof (pow2_pos (-53)) as Hu.
  set (m := inject_Z (nearest_even (x / q))) in *.
  set (s := x / q) in *.
  assert (Hhalf : (1 # 2) * q <= x * pow2 (-53)) by nra.
  split; nra.
Qed.

Lemma unit_roundoff_small : 0 < unit_roundoff /\ unit_roundoff <= 1 # 1000000000000000.
Proof. split; vm_compute; [reflexivity | discriminate]. Qed.

Lemma representable_1 : representable 1.
Proof. exists (2 ^ 52)%Z. vm_compute. reflexivity. Qed.

Lemma representable_100 : representable 100.
Proof. exists (100 * 2 ^ 46)%Z. vm_compute. reflexivity. Qed.

End DoubleRounding.

(** ** The whole percent of a fraction *)

(** The double [status.progress()] returns for a fraction between 0 and 1
    lies between 0 and 1, within a 2^-53 part of the fraction. *)
Lemma progress_double (p : Q) :
  0 <= p -> p <= 1 ->
  0 <= Doubles.fl p /\ Doubles.fl p <= 1 /\
  p - Doubles.unit_roundoff <= Doubles.fl p /\ Doubles.fl p <= p + Doubles.unit_roundoff.
Proof.
  intros H0 H1. destruct (fl_error p H0) as [Hlo Hhi].
  destruct unit_roundoff_small as [Hu _].
  split; [apply fl_nonneg; exact H0|].
  split.
  - destruct (Qlt_le_dec 0 p) as [Hpos|Hle].
    + apply fl_le_representable; [exact Hpos | exact H1 | apply representable_1].
    + rewrite (fl_zero p) by lra. lra.
  - split; nra.
Qed.

(** Line 257 in numbers: the product [progress() * 100], as a double. *)
Lemma scaled_progress (p : Q) :
  0 <= p -> p <= 1 ->
  let y := Doubles.mul (Doubles.fl p) (Doubles.of_int 100) in
  0 <= y /\ y <= 100 /\
  100 * p - 200 * Doubles.unit_roundoff <= y /\
  y <= 100 * p + 200 * Doubles.unit_roundoff.
Proof.
  intros H0 H1 y. subst y.
  destruct (progress_double p H0 H1) as (Hp0 & Hp1 & Hplo & Hphi).
  destruct unit_roundoff_small as [Hu Hu'].
  change (Doubles.of_int 100) with 100. unfold Doubles.mul.
  set (t := Doubles.fl p * 100) in *.
  assert (Ht0 : 0 <= t) by (unfold t; lra).
  assert (Ht1 : t <= 100) by (unfold t; lra).
  destruct (fl_error t Ht0) as [Hlo Hhi].
  split; [apply fl_nonneg; exact Ht0|].
  split.
  - destruct (Qlt_le_dec 0 t) as [Hpos|Hle].
    + apply fl_le_representable; [exact Hpos | exact Ht1 | apply representable_100].
    + rewrite (fl_zero t) by lra. lra.
  - assert (Htu : t * Doubles.unit_roundoff <= 100 * Doubles.unit_roundoff) by nra.
    assert (Htu0 : 0 <= t * Doubles.unit_roundoff) by nra.
    unfold t in *. split; lra.
Qed.

Lemma chunk_progress_bounds (p : Q) :
  0 <= p -> p <= 1 ->
  (0 <= chunk_progress p <= 100)%Z /\
  100 * p - 1 - eps < inject_Z (chunk_progress p) /\
  inject_Z (chunk_progress p) <= 100 * p + eps.
Proof.
  intros H0 H1. unfold chunk_progress.
  destruct (scaled_progress p H0 H1) as (Hy0 & Hy1 & Hylo & Hyhi).
  set (y := Doubles.mul (Doubles.fl p) (Doubles.of_int 100)) in *.
  rewrite (py_int_Qfloor y Hy0).
  destruct (floor_bounds y) as [Hf1 Hf2].
  destruct unit_roundoff_small as [Hu Hu'].
  assert (Hn0 : (0 <= Qfloor y)%Z).
  { change 0%Z with (Qfloor 0). apply Qfloor_resp_le. exact Hy0. }
  assert (Hn1 : (Qfloor y <= 100)%Z).
  { change 100%Z with (Qfloor 100). apply Qfloor_resp_le. exact Hy1. }
  unfold eps. repeat split; try assumption; lra.
Qed.

Lemma whole_percent_listed (n : Z) : (0 <= n <= 100)%Z -> In n whole_percents.
Proof.
  intros Hn. unfold whole_percents. apply in_map_iff.
  exists (Z.to_nat n). split; [lia|]. apply in_seq. lia.
Qed.

(** Line 259 in numbers, for every whole percent: checked one by one. *)
Lemma progress_percent_near_scale (n : Z) :
  (0 <= n <= 100)%Z ->
  30 + inject_Z n * (7 # 10) - (1 # 10000000000000) <= progress_percent n /\
  progress_percent n <= 30 + inject_Z n * (7 # 10) + (1 # 10000000000000) /\
  30 <= progress_percent n /\ progress_percent n <= 100.
Proof.
  intros Hn.
  assert (Hall : forallb near_scale whole_percents = true) by (vm_compute; reflexivity).
  rewrite forallb_forall in Hall.
  specialize (Hall n (whole_percent_listed n Hn)).
  unfold near_scale in Hall. cbv zeta in Hall.
  rewrite !andb_true_iff, !Qle_bool_iff in Hall. tauto.
Qed.

Lemma prefix_nil (s : string) : String.prefix "" s = true.
Proof. destruct s; reflexivity. Qed.

Lemma acknowledgement_events_app (l1 l2 : list ProgressEvent) :
  Spec.acknowledgement_events (l1 ++ l2)
  = (Spec.acknowledgement_events l1 ++ Spec.acknowledgement_events l2)%list.
Proof. apply filter_app. Qed.

(** The loop reports line 259 for every status it meets, and nothing else
    that reads as an acknowledgement. *)
Lemma upload_loop_acknowledges (script : list ChunkReply) (w0 : World) :
  Spec.acknowledgement_events
    (progress_log (snd (upload_loop (Some recorder) script w0)))
  = (Spec.acknowledgement_events (progress_log w0)
       ++ map acknowledgement (acknowledged script))%list.
Proof.
  revert w0. induction script as [|reply script IH]; intros w0.
  - cbn. rewrite app_nil_r. reflexivity.
  - cbn [upload_loop acknowledged]. run_py. cbn.
    destruct reply as [e|[p|] [r|]]; cbn;
      try match goal with
        | |- context [upload_loop ?c script ?w] =>
            change c with (Some recorder); rewrite (IH w)
        end;
      cbn; rewrite ?acknowledgement_events_app; cbn; rewrite ?prefix_nil;
      rewrite ?app_nil_r, <- ?app_assoc; reflexivity.
Qed.

(** C5, as the specification states it, fails at p = 1/3: for a file
    acknowledged at a third, the stage reports 53.1 (to the last bit of a
    double) with "Uploading... 33%", not 30 + 70/3. *)
Lemma C5_third_counterexample :
  exists w x,
    upload_video Cases.one_third "processed/shorts_a.mp4" "My short" "" "22" ""
                 "private" (Some recorder) Scenario.authenticated
    = (Returned (Some (true, "video-id")), w) /\
    Spec.acknowledgement_events (progress_log w) = [(x, "Uploading... 33%")] /\
    0 <= 1 # 3 /\ 1 # 3 <= 1 /\
    ~ x == 30 + (1 # 3) * 70.
Proof.
  eexists. eexists.
  split; [vm_compute; reflexivity|].
  split; [vm_compute; reflexivity|].
  repeat split; vm_compute; discriminate.
Qed.

(** C5 (amended).  For every status the upload loop meets, upload_video
    reports 30 + n * 0.7 with the message "Uploading... n%", where
    n = int(p * 100) is the progress cut to a whole percent and every
    operation is the one on doubles; it reports nothing else under such a
    message.  For p in [0,1], n lies between 0 and 100, above 100 p - 1 and
    not above 100 p, up to 10^-12; the reported value lies between 30 and 100,
    less than 0.7 below 30 + p * 70 and not above it, up to 10^-12.  The
    rounding of the product decides n: 0.29 gives 28, the product being just
    below 29, and the double below 0.6 gives 60.  For the transport reporting
    0, 0.25, 0.5, 0.75 and 1 with the response on the last call, the events
    reported for the acknowledgements are 30, 47.5, 65, 82.5 and 100. *)
Theorem C5_chunk_percent_truncates :
  (forall (api : GoogleApi)
          (file_path title description category_id keywords privacy_status : string)
          (w0 : World) (service : Credentials),
      media_file_upload api file_path = None ->
      youtube_service w0 = Some service ->
      Spec.acknowledgement_events
        (progress_log (snd (upload_video api file_path title description category_id
                                         keywords privacy_status (Some recorder) w0)))
      = (Spec.acknowledgement_events (progress_log w0)
           ++ map acknowledgement (acknowledged (next_chunk api)))%list) /\
  (forall p : Q,
      0 <= p -> p <= 1 ->
      (0 <= chunk_progress p <= 100)%Z /\
      100 * p - 1 - eps < inject_Z (chunk_progress p) /\
      inject_Z (chunk_progress p) <= 100 * p + eps /\
      30 <= chunk_percent p /\ chunk_percent p <= 100 /\
      30 + p * 70 - (7 # 10) - eps < chunk_percent p /\
      chunk_percent p <= 30 + p * 70 + eps) /\
  (chunk_progress (29 # 100) = 28%Z /\
   Doubles.fl (3 # 5) < 3 # 5 /\ chunk_progress (Doubles.fl (3 # 5)) = 60%Z) /\
  (exists w,
      upload_video Scenario.mock_transport "processed/shorts_a.mp4" "My short" "" "22" ""
                   "private" (Some recorder) Scenario.authenticated
      = (Returned (Some (true, "video-id")), w) /\
      map (fun e => Qred (percent e)) (Spec.acknowledgement_events (progress_log w))
      = [30; 95 # 2; 65; 165 # 2; 100]).
Proof.
  split; [|split; [|split]].
  - intros api file_path title description category_id keywords privacy_status
           w0 service Hmedia Hsvc.
    unfold upload_video, upload_body, videos_insert. run_py.
    rewrite Hmedia. cbn. rewrite Hsvc. cbn.
    match goal with
    | |- context [upload_loop ?c ?s ?w] =>
        pose proof (upload_loop_acknowledges s w) as Hloop;
        change (Some recorder) with c in Hloop;
        destruct (upload_loop c s w) as [[[r|]|e] w1]
    end; cbn in *;
      rewrite ?acknowledgement_events_app, Hloop, ?acknowledgement_events_app;
      cbn; rewrite ?app_nil_r; reflexivity.
  - intros p H0 H1.
    destruct (chunk_progress_bounds p H0 H1) as (Hn & Hnlo & Hnhi).
    destruct (progress_percent_near_scale (chunk_progress p) Hn)
      as (Hlo & Hhi & H30 & H100).
    unfold chunk_percent, eps in *.
    repeat split; try assumption; try lia; lra.
  - repeat split; vm_compute; reflexivity.
  - eexists. split; vm_compute; reflexivity.
Qed.

Lemma C5_chunk_percent_witness :
  (0 <= chunk_progress (1 # 4) <= 100)%Z /\
  100 * (1 # 4) - 1 - eps < inject_Z (chunk_progress (1 # 4)) /\
  inject_Z (chunk_progress (1 # 4)) <= 100 * (1 # 4) + eps /\
  30 <= chunk_percent (1 # 4) /\ chunk_percent (1 # 4) <= 100 /\
  30 + (1 # 4) * 70 - (7 # 10) - eps < chunk_percent (1 # 4) /\
  chunk_percent (1 # 4) <= 30 + (1 # 4) * 70 + eps.
Proof.
  apply (proj1 (proj2 C5_chunk_percent_truncates) (1 # 4)); vm_compute; discriminate.
Defined.

(** ** Failure reports *)

(** A failure raised as an exception is reported: one event at 0 percent with
    the error text closes the sequence, and None is returned. *)
Lemma download_exception_is_reported (tr : Transport) (url e : string) (w : World) :
  is_youtube_url url = true ->
  first_stream tr url = Raised e ->
  exists w',
    download_video tr url (Some recorder) w = (Returned None, w') /\
    progress_log w'
    = (progress_log w
         ++ [(10, "Starting download..."); (0, ("Error: " ++ e)%string)])%list.
Proof.
  intros Hyt Hraise.
  unfold download_video, download_body. run_py.
  rewrite Hyt. cbn. rewrite Hraise. cbn.
  eexists. split; [reflexivity|]. cbn. rewrite <- app_assoc. reflexivity.
Qed.

(** C6 fails for the no-suitable-stream failure.  download_video returns None
    after the single event (10, "Starting download..."): no event at 0
    percent, no error message. *)
Theorem C6_no_stream_failure_is_silent :
  exists w,
    download_video Scenario.no_stream "https://www.youtube.com/watch?v=abc"
                   (Some recorder) initial_world
    = (Returned None, w) /\
    progress_log w = [(10, "Starting download...")] /\
    Spec.failure_events (progress_log w) = [].
Proof.
  eexists. repeat split; vm_compute; reflexivity.
Qed.

(** ** Validation of the title *)

(** C7, as the specification states it, fails on the publisher: given an empty
    title, upload_video goes to the network and succeeds. *)
Lemma C7_empty_title_reaches_network :
  exists w,
    upload_video Scenario.one_chunk "processed/shorts_a.mp4" "" "" "22" ""
                 "private" (Some recorder) Scenario.authenticated
    = (Returned (Some (true, "video-id")), w) /\
    network Scenario.authenticated = [] /\
    network w = ["next_chunk"].
Proof.
  eexists. repeat split; vm_compute; reflexivity.
Qed.

(** C7 (amended).  Every request to the /api/upload route whose title is
    empty, absent or otherwise falsy is answered at once, and the upload is
    not started: the world is left as it was, so no network call is made.
    The answer is status 400 with the error "Invalid parameters" when the
    body is a JSON object and the check of the video_path returns; it is
    status 500 with the text of the exception when the body is not a JSON
    object, or when os.path.exists raises on the video_path, which line 360
    evaluates before the title. *)
Theorem C7_route_rejects_empty_title :
  forall (host : Route.Host) (api : GoogleApi) (get_json : Json.value) (w : World),
    Json.truthy (Route.title_of get_json) = false ->
    Route.upload_video host api get_json w
    = (Returned
         match get_json with
         | Json.Object data =>
             let video_path := Json.get data "video_path" Json.Null in
             if Json.truthy video_path then
               match Route.os_path_exists host video_path with
               | Returned _ => Route.mkResponse 400 false "Invalid parameters"
               | Raised e => Route.mkResponse 500 false e
               end
             else Route.mkResponse 400 false "Invalid parameters"
         | other =>
             Route.mkResponse 500 false
               ("'" ++ Json.type_name other ++ "' object has no attribute 'get'")
         end, w).
Proof.
  intros host api get_json w Htitle.
  destruct get_json as [|b|n|x|s|items|data]; try reflexivity.
  cbn [Route.title_of] in Htitle.
  unfold Route.upload_video, Route.invalid_parameters.
  rewrite Htitle. cbv zeta.
  destruct (Json.truthy (Json.get data "video_path" Json.Null)); cbn [negb];
    [|reflexivity].
  destruct (Route.os_path_exists host (Json.get data "video_path" Json.Null))
    as [[|]|e]; reflexivity.
Qed.

(** With a title and an existing file the route does start the upload. *)
Example route_starts_valid_upload :
  exists w,
    Route.upload_video Cases.host Scenario.one_chunk Cases.publish_request
                       Scenario.authenticated
    = (Returned (Route.mkResponse 200 true "Upload started"), w) /\
    network w = ["next_chunk"].
Proof.
  eexists. split; vm_compute; reflexivity.
Qed.

(** An empty title with a video_path that is a list: the file check raises
    before the title is looked at, and the answer is 500. *)
Example route_fails_on_list_path :
  Route.upload_video Cases.host Scenario.one_chunk Cases.untitled_list_request
                     Scenario.authenticated
  = (Returned
       (Route.mkResponse 500 false
          "stat: path should be string, bytes, os.PathLike or integer, not list"),
     Scenario.authenticated).
Proof.
  vm_compute. reflexivity.
Qed.

Lemma C7_route_rejects_witness :
  Route.upload_video Cases.host Scenario.one_chunk Cases.untitled_request
                     Scenario.authenticated
  = (Returned (Route.mkResponse 400 false "Invalid parameters"), Scenario.authenticated).
Proof.
  apply (C7_route_rejects_empty_title Cases.host Scenario.one_chunk
           Cases.untitled_request Scenario.authenticated).
  reflexivity.
Defined.


(** ** Names of generic downloads *)

Lemma length_append (s1 s2 : string) :
  String.length (s1 ++ s2) = (String.length s1 + String.length s2)%nat.
Proof.
  induction s1 as [|c s1 IH]; cbn; [reflexivity | now rewrite IH].
Qed.

Lemma append_cancel_r (t s1 s2 : string) : s1 ++ t = s2 ++ t -> s1 = s2.
Proof.
  revert s2. induction s1 as [|c s1 IH]; intros [|c' s2] H; cbn in H.
  - reflexivity.
  - exfalso. apply (f_equal String.length) in H. cbn in H.
    rewrite length_append in H. lia.
  - exfalso. apply (f_equal String.length) in H. cbn in H.
    rewrite length_append in H. lia.
  - inversion H. f_equal. auto.
Qed.

(** Printing an integer in decimal loses nothing. *)
Lemma str_int_inj (n m : Z) : str_int n = str_int m -> n = m.
Proof.
  unfold str_int. intros H.
  apply DecimalZ.to_int_inj.
  apply (f_equal NilEmpty.int_of_string) in H.
  rewrite !NilEmpty.isi in H. congruence.
Qed.

Lemma video_name_inj (t1 t2 : Q) :
  video_name t1 = video_name t2 -> py_int t1 = py_int t2.
Proof.
  unfold video_name, os_path_join, UPLOAD_FOLDER. cbn.
  intros H. inversion H as [H'].
  apply append_cancel_r in H'. apply str_int_inj. exact H'.
Qed.

(** C8, as the specification states it, fails within one second: two generic
    fetches a quarter and three quarters into second 1700000000 are both
    written to uploads/video_1700000000.mp4. *)
Lemma C8_same_second_collision :
  let t1 := 1700000000 + (1 # 4) in
  let t2 := 1700000000 + (3 # 4) in
  ~ t1 == t2 /\
  fst (download_video (Scenario.generic_at t1) "https://example.com/a.mp4"
                      None initial_world)
  = Returned (Some "uploads/video_1700000000.mp4") /\
  fst (download_video (Scenario.generic_at t2) "https://example.com/b.mp4"
                      None initial_world)
  = Returned (Some "uploads/video_1700000000.mp4") /\
  video_name t1 = video_name t2.
Proof.
  cbv zeta. repeat split; try (vm_compute; reflexivity).
  vm_compute. discriminate.
Qed.

(** C8 (amended).  Two generic fetches whose clock readings fall in different
    whole seconds get distinct destination paths; the path depends on the
    whole second only, so readings within one second give the same path.  A
    generic fetch that succeeds returns the path named after the second in
    which it ran. *)
Theorem C8_distinct_seconds_distinct_paths :
  (forall t1 t2 : Q, py_int t1 <> py_int t2 -> video_name t1 <> video_name t2) /\
  (forall t1 t2 : Q, py_int t1 = py_int t2 -> video_name t1 = video_name t2) /\
  (forall (tr : Transport) (url : string) (w : World),
      is_youtube_url url = false ->
      urlretrieve tr url (video_name (time_time tr)) = None ->
      fst (download_video tr url None w) = Returned (Some (video_name (time_time tr)))).
Proof.
  split; [|split].
  - intros t1 t2 Hne Heq. apply Hne, video_name_inj, Heq.
  - intros t1 t2 Heq. unfold video_name. rewrite Heq. reflexivity.
  - intros tr url w Hgen Hok.
    unfold download_video, download_body. run_py.
    rewrite Hgen. cbn -[video_name]. rewrite Hok. reflexivity.
Qed.

Lemma C8_distinct_seconds_witness :
  video_name (1700000000 + (3 # 4)) <> video_name (1700000001 + (1 # 4)).
Proof.
  apply (proj1 C8_distinct_seconds_distinct_paths). vm_compute. discriminate.
Defined.

(** ** Authentication with a persisted session *)

(** C9.  When token.pickle holds valid credentials, authenticate_youtube runs
    no consent flow and leaves the token file as it is, whatever else happens.
    When moreover the payload parses and the service builds, the call returns
    (True, "Authentication successful") with the service built from the
    persisted credentials, and a second call returns the same and changes
    nothing. *)
Theorem C9_authenticate_short_circuits :
  forall (oa : OAuth) (credentials_json : string) (w : World) (creds : Credentials),
    token_pickle w = Some creds ->
    valid creds = true ->
    (let w1 := snd (authenticate_youtube oa credentials_json w) in
     consent_flows w1 = consent_flows w /\ token_pickle w1 = Some creds) /\
    (forall info : string,
        json_loads oa credentials_json = Returned info ->
        build oa creds = None ->
        exists w1,
          authenticate_youtube oa credentials_json w
          = (Returned (true, "Authentication successful"), w1) /\
          youtube_service w1 = Some creds /\
          token_pickle w1 = Some creds /\
          consent_flows w1 = consent_flows w /\
          authenticate_youtube oa credentials_json w1
          = (Returned (true, "Authentication successful"), w1)).
Proof.
  intros oa credentials_json w creds Htok Hvalid.
  unfold authenticate_youtube, authenticate_body, ensure_valid. run_py.
  split.
  - destruct (json_loads oa credentials_json) as [info|e]; cbn.
    + rewrite Htok, Hvalid. destruct (build oa creds); cbn; auto.
    + auto.
  - intros info Hjson Hbuild. rewrite Hjson. cbn.
    rewrite Htok, Hvalid, Hbuild. cbn.
    eexists. split; [reflexivity|]. cbn.
    rewrite Htok, Hvalid, Hbuild. cbn. repeat split; try assumption.
Qed.

Lemma C9_authenticate_witness :
  exists w1,
    authenticate_youtube Scenario.oauth "{}" Scenario.with_token
    = (Returned (true, "Authentication successful"), w1) /\
    youtube_service w1 = Some Scenario.session /\
    token_pickle w1 = Some Scenario.session /\
    consent_flows w1 = consent_flows Scenario.with_token /\
    authenticate_youtube Scenario.oauth "{}" w1
    = (Returned (true, "Authentication successful"), w1).
Proof.
  apply (proj2 (C9_authenticate_short_circuits Scenario.oauth "{}" Scenario.with_token
                  Scenario.session eq_refl eq_refl) "{}"); reflexivity.
Defined.

(** ** Upload without a session *)

(** C10.  On a processor whose youtube_service is still None, upload_video
    raises nothing: it returns (False, "Upload failed: ...") with the text of
    the exception it caught (the failed attribute lookup on None, unless
    opening the file failed first), makes no network call, and, when a
    callback is given, ends its reports with the event at 0 percent carrying
    the error. *)
Theorem C10_upload_without_service_fails_cleanly :
  forall (api : GoogleApi)
         (file_path title description category_id keywords privacy_status : string)
         (progress_callback : option Callback) (w : World),
    youtube_service w = None ->
    progress_callback = None \/ progress_callback = Some recorder ->
    exists (e : string) (w' : World),
      upload_video api file_path title description category_id keywords
                   privacy_status progress_callback w
      = (Returned (Some (false, "Upload failed: " ++ e)), w') /\
      network w' = network w /\
      (media_file_upload api file_path = None ->
       e = "'NoneType' object has no attribute 'videos'") /\
      (progress_callback = Some recorder ->
       last (progress_log w') (100, "") = (0, "Error: " ++ e)).
Proof.
  intros api file_path title description category_id keywords privacy_status
         progress_callback w Hnone Hcb.
  unfold upload_video, upload_body, videos_insert. run_py.
  destruct Hcb as [-> | ->]; cbn;
    destruct (media_file_upload api file_path) as [e|]; cbn;
    try rewrite Hnone; cbn;
    eexists; eexists; (split; [reflexivity|]); (split; [reflexivity|]);
    (split; [intros H; solve [discriminate | reflexivity]|]);
    intros H; try discriminate; apply last_last.
Qed.

Lemma C10_upload_without_service_witness :
  exists (e : string) (w' : World),
    upload_video Scenario.one_chunk "processed/shorts_a.mp4" "My short" "" "22" ""
                 "private" (Some recorder) initial_world
    = (Returned (Some (false, "Upload failed: " ++ e)), w') /\
    network w' = network initial_world /\
    (media_file_upload Scenario.one_chunk "processed/shorts_a.mp4" = None ->
     e = "'NoneType' object has no attribute 'videos'") /\
    (Some recorder = Some recorder ->
     last (progress_log w') (100, "") = (0, "Error: " ++ e)).
Proof.
  apply C10_upload_without_service_fails_cleanly; [reflexivity | right; reflexivity].
Defined.

(** * Further properties of the pipeline *)

(** ** Paths *)

Lemma str_in_slash_cons (c : ascii) (s : string) :
  str_in "/" (String c s) = orb (Ascii.eqb c slash) (str_in "/" s).
Proof.
  unfold str_in. cbn [String.index String.prefix].
  destruct (Ascii.ascii_dec "/"%char c) as [<-|Hne].
  - cbn. destruct s; reflexivity.
  - assert (Hc : Ascii.eqb c slash = false).
    { apply Ascii.eqb_neq. intro H. apply Hne. symmetry. exact H. }
    rewrite Hc. cbn [orb].
    destruct (String.index 0 "/" s); reflexivity.
Qed.

Lemma basename_no_slash (p : string) : str_in "/" (os_path_basename p) = false.
Proof.
  induction p as [|c rest IH]; [reflexivity|].
  cbn [os_path_basename].
  destruct (str_in "/" rest) eqn:Hrest; [exact IH|].
  destruct (Ascii.eqb c slash) eqn:Hc; [exact Hrest|].
  rewrite str_in_slash_cons, Hc, Hrest. reflexivity.
Qed.

Lemma basename_of_plain (p : string) :
  str_in "/" p = false -> os_path_basename p = p.
Proof.
  destruct p as [|c rest]; [reflexivity|].
  rewrite str_in_slash_cons. intros H. apply orb_false_iff in H. destruct H as [Hc Hrest].
  cbn [os_path_basename]. rewrite Hrest, Hc. reflexivity.
Qed.

Lemma basename_after_dir (dir name : string) :
  str_in "/" name = false ->
  os_path_basename (dir ++ "/" ++ name) = name.
Proof.
  intros Hname. induction dir as [|c dir IH].
  - cbn [append os_path_basename]. rewrite Hname. reflexivity.
  - cbn [append]. cbn [os_path_basename].
    assert (Hin : str_in "/" (dir ++ String slash name) = true).
    { clear IH. induction dir as [|c' dir IH']; cbn [append].
      - rewrite str_in_slash_cons. reflexivity.
      - rewrite str_in_slash_cons, IH'. apply orb_true_r. }
    unfold slash in Hin. rewrite Hin. exact IH.
Qed.

Lemma str_in_slash_app (a b : string) :
  str_in "/" (a ++ b) = orb (str_in "/" a) (str_in "/" b).
Proof.
  induction a as [|c a IH]; cbn [append].
  - reflexivity.
  - rewrite !str_in_slash_cons, IH. apply orb_assoc.
Qed.

Lemma string_of_uint_no_slash (u : Decimal.uint) :
  str_in "/" (NilEmpty.string_of_uint u) = false.
Proof.
  induction u; cbn [NilEmpty.string_of_uint]; try reflexivity;
    rewrite str_in_slash_cons, IHu; reflexivity.
Qed.

Lemma str_int_no_slash (n : Z) : str_in "/" (str_int n) = false.
Proof.
  unfold str_int. destruct (Z.to_int n) as [u|u]; cbn [NilEmpty.string_of_int].
  - apply string_of_uint_no_slash.
  - rewrite str_in_slash_cons, string_of_uint_no_slash. reflexivity.
Qed.

(** The file name of a generic download, as the transformer recovers it. *)
Lemma basename_video_name (t : Q) :
  os_path_basename (video_name t) = "video_" ++ str_int (py_int t) ++ ".mp4".
Proof.
  unfold video_name, UPLOAD_FOLDER.
  change (os_path_join "uploads" ("video_" ++ str_int (py_int t) ++ ".mp4"))
    with ("uploads" ++ "/" ++ ("video_" ++ str_int (py_int t) ++ ".mp4")).
  apply basename_after_dir.
  rewrite !str_in_slash_app, str_int_no_slash. reflexivity.
Qed.

Lemma substring_prefix (s t : string) :
  substring 0 (String.length s) (s ++ t) = s.
Proof.
  induction s as [|c s IH]; cbn.
  - destruct t; reflexivity.
  - now rewrite IH.
Qed.

Lemma substring_middle (a s t : string) :
  substring (String.length a) (String.length s) (a ++ s ++ t) = s.
Proof.
  induction a as [|c a IH]; cbn [append String.length substring].
  - apply substring_prefix.
  - exact IH.
Qed.

(** A needle that occurs anywhere is found, as [in] finds it. *)
Lemma str_in_middle (needle a t : string) :
  needle <> EmptyString -> str_in needle (a ++ needle ++ t) = true.
Proof.
  intros Hne. unfold str_in.
  destruct (String.index 0 needle (a ++ needle ++ t)) eqn:Hidx; [reflexivity|].
  exfalso.
  apply (String.index_correct3 0 (String.length a) _ _ Hidx Hne (Nat.le_0_l _)).
  apply substring_middle.
Qed.

(** ** The transformer beyond the too-wide branch *)

Lemma ratio_le_iff (n : Z) (d : positive) (width height : Z) :
  (0 < height)%Z ->
  (n # d <= inject_Z width / inject_Z height <-> (n * height <= width * Zpos d)%Z).
Proof.
  intros Hh. destruct height as [|p|p]; try lia.
  unfold Qle, Qdiv, Qmult, Qinv, inject_Z. cbn [Qnum Qden]. nia.
Qed.

Lemma ratio_ge_iff (n : Z) (d : positive) (width height : Z) :
  (0 < height)%Z ->
  (inject_Z width / inject_Z height <= n # d <-> (width * Zpos d <= n * height)%Z).
Proof.
  intros Hh. destruct height as [|p|p]; try lia.
  unfold Qle, Qdiv, Qmult, Qinv, inject_Z. cbn [Qnum Qden]. nia.
Qed.

(** The tolerance test of line 123, in whole numbers: no adjustment exactly
    when the ratio lies between 37/80 and 53/80. *)
Lemma needs_crop_false_iff (width height : Z) :
  (0 < height)%Z ->
  (needs_crop (inject_Z width / inject_Z height) = false
   <-> (37 * height <= 80 * width <= 53 * height)%Z).
Proof.
  intros Hh. unfold needs_crop, tolerance, target_aspect_ratio.
  rewrite Qgtb_false, Qabs_Qle_condition.
  pose proof (ratio_le_iff 37 80 width height Hh) as Hlo.
  pose proof (ratio_ge_iff 53 80 width height Hh) as Hhi.
  set (q := inject_Z width / inject_Z height) in *.
  split.
  - intros [H1 H2]. split.
    + assert (37 # 80 <= q) by lra. apply Hlo in H. lia.
    + assert (q <= 53 # 80) by lra. apply Hhi in H. lia.
  - intros [H1 H2].
    assert (37 # 80 <= q) by (apply Hlo; lia).
    assert (q <= 53 # 80) by (apply Hhi; lia).
    split; lra.
Qed.

Lemma nonzero_height_ratio (width height : Z) :
  height <> 0%Z ->
  current_aspect_ratio width height = Returned (inject_Z width / inject_Z height).
Proof.
  intros Hh. unfold current_aspect_ratio.
  destruct (Z.eqb_spec height 0); [contradiction | reflexivity].
Qed.

(** X1.  For every source that loads and renders and whose aspect ratio is
    below 9/16 by more than the tolerance, the stage renders a clip cropped to
    height [int(width / (9/16))] = floor(16 * width / 9), centred vertically,
    over the full width. *)
Theorem too_tall_crop_truncates :
  forall (d : Q) (width height : Z) (current : Q) (video_path : string) (w0 : World),
    (0 <= width)%Z ->
    current_aspect_ratio width height = Returned current ->
    needs_crop current = true ->
    too_wide current = false ->
    exists w clip r,
      convert_to_shorts_format (healthy d width height) video_path (Some recorder) w0
      = (Returned (Some (os_path_join PROCESSED_FOLDER
                           ("shorts_" ++ os_path_basename video_path))), w) /\
      written w
      = (written w0
           ++ [(os_path_join PROCESSED_FOLDER ("shorts_" ++ os_path_basename video_path),
                clip)])%list /\
      cropped_to clip = Some r /\
      new_height width = (16 * width / 9)%Z /\
      y2 r - y1 r == inject_Z (new_height width) /\
      y1 r + y2 r == inject_Z height /\
      x1 r == 0 /\ x2 r == inject_Z width.
Proof.
  intros d width height current video_path w0 Hw Hcur Hneeds Htall.
  unfold convert_to_shorts_format, convert_body, healthy. run_py.
  cbn [video_file_clip write_videofile fst snd duration].
  destruct (Qgtb d max_duration) eqn:Hd; cbn [size subclip duration cropped_to];
    rewrite Hcur; unfold adjust_aspect_ratio, crop_rect; rewrite Hneeds, Htall;
    (eexists; eexists; eexists; split; [reflexivity|]);
    (split; [reflexivity|]);
    cbn [duration subclip crop cropped_to x1 x2 y1 y2];
    destruct (centred_width height (new_height width)) as [Hh Hc];
    (split; [reflexivity|]); (split; [apply new_height_floor; lia|]);
    unfold crop_y1, crop_y2, y_center; repeat split; try assumption; reflexivity.
Qed.

Lemma too_tall_crop_witness :
  exists w clip r,
    convert_to_shorts_format (healthy 30 480 1920) "uploads/tall.mp4" (Some recorder)
                             initial_world
    = (Returned (Some (os_path_join PROCESSED_FOLDER
                         ("shorts_" ++ os_path_basename "uploads/tall.mp4"))), w) /\
    written w
    = (written initial_world
         ++ [(os_path_join PROCESSED_FOLDER ("shorts_" ++ os_path_basename "uploads/tall.mp4"),
              clip)])%list /\
    cropped_to clip = Some r /\
    new_height 480 = (16 * 480 / 9)%Z /\
    y2 r - y1 r == inject_Z (new_height 480) /\
    y1 r + y2 r == inject_Z 1920 /\
    x1 r == 0 /\ x2 r == inject_Z 480.
Proof.
  apply (too_tall_crop_truncates 30 480%Z 1920%Z (inject_Z 480 / inject_Z 1920));
    [lia | reflexivity | reflexivity | reflexivity].
Defined.

(** X2.  A source that loads and renders is left uncropped exactly when
    37 * height <= 80 * width <= 53 * height, that is when its ratio is within
    0.1 of 9/16; outside that band it is always cropped. *)
Theorem no_crop_within_band :
  forall (d : Q) (width height : Z) (video_path : string) (w0 : World),
    (0 < height)%Z ->
    exists w clip,
      convert_to_shorts_format (healthy d width height) video_path (Some recorder) w0
      = (Returned (Some (os_path_join PROCESSED_FOLDER
                           ("shorts_" ++ os_path_basename video_path))), w) /\
      written w
      = (written w0
           ++ [(os_path_join PROCESSED_FOLDER ("shorts_" ++ os_path_basename video_path),
                clip)])%list /\
      (cropped_to clip = None <-> (37 * height <= 80 * width <= 53 * height)%Z).
Proof.
  intros d width height video_path w0 Hh.
  pose proof (needs_crop_false_iff width height Hh) as Hband.
  assert (Hcur := nonzero_height_ratio width height ltac:(lia)).
  unfold convert_to_shorts_format, convert_body, healthy. run_py.
  cbn [video_file_clip write_videofile fst snd duration].
  destruct (Qgtb d max_duration); cbn [size subclip duration cropped_to];
    rewrite Hcur; unfold adjust_aspect_ratio, crop_rect;
    (destruct (needs_crop (inject_Z width / inject_Z height));
     [destruct (too_wide (inject_Z width / inject_Z height))|]);
    (eexists; eexists; split; [reflexivity|]); (split; [reflexivity|]);
    cbn [crop cropped_to];
    rewrite <- Hband; split; intros H; try reflexivity; discriminate.
Qed.

Lemma no_crop_within_band_witness :
  exists w clip,
    convert_to_shorts_format (healthy 20 1080 1920) "uploads/v.mp4" (Some recorder)
                             initial_world
    = (Returned (Some (os_path_join PROCESSED_FOLDER
                         ("shorts_" ++ os_path_basename "uploads/v.mp4"))), w) /\
    written w
    = (written initial_world
         ++ [(os_path_join PROCESSED_FOLDER ("shorts_" ++ os_path_basename "uploads/v.mp4"),
              clip)])%list /\
    (cropped_to clip = None <-> (37 * 1920 <= 80 * 1080 <= 53 * 1920)%Z).
Proof.
  apply (no_crop_within_band 20 1080%Z 1920%Z "uploads/v.mp4" initial_world). lia.
Defined.

(** X3.  Whatever the stage renders from a file of duration d lasts d when
    d <= 60 and 60 seconds when d > 60: the cut is at 60 and never longer. *)
Theorem convert_duration :
  forall (mp : MoviePy) (video_path : string) (d : Q) (frame : Z * Z)
         (out : string) (clip : Clip),
    video_file_clip mp video_path = Returned (d, frame) ->
    In (out, clip)
       (written (snd (convert_to_shorts_format mp video_path (Some recorder)
                                               initial_world))) ->
    (d <= 60 -> duration clip = d) /\
    (60 < d -> duration clip == 60).
Proof.
  intros mp video_path d [width height] out clip Hload.
  unfold convert_to_shorts_format, convert_body. run_py.
  rewrite Hload. cbn [fst snd duration].
  destruct (Qgtb d max_duration) eqn:Hd; cbn [size subclip];
    (destruct (current_aspect_ratio width height); cbn; [|tauto]);
    (case_write_videofile; cbn; try tauto);
    (intros [Heq | []]; inversion Heq; subst clip; clear Heq);
    unfold adjust_aspect_ratio; destruct (crop_rect _ _ _); cbn.
  all: try (apply Qgtb_true in Hd; unfold max_duration in Hd;
            split; [intros Hle; exfalso; apply (Qlt_not_le _ _ Hd Hle)
                   |intros _; unfold max_duration; ring]).
  all: apply Qgtb_false in Hd; unfold max_duration in Hd;
       split; [reflexivity | intros Hlt; exfalso; apply (Qlt_not_le _ _ Hlt Hd)].
Qed.

Lemma convert_duration_witness :
  (90 <= 60 -> duration Cases.trimmed_wide_clip = 90) /\
  (60 < 90 -> duration Cases.trimmed_wide_clip == 60).
Proof.
  apply (convert_duration (healthy 90 1920 1080) "uploads/a.mp4" 90 (1920%Z, 1080%Z)
           "processed/shorts_a.mp4" Cases.trimmed_wide_clip);
    [reflexivity | left; reflexivity].
Defined.

(** X4.  With a recording callback the stage never raises.  It returns either
    the path processed/shorts_<basename>, having rendered exactly one clip of
    at most 60 seconds there, closed the clip it opened, and reported 100
    percent last; or None, having rendered nothing and reported 0 percent with
    an error text last. *)
Theorem convert_outcome :
  forall (mp : MoviePy) (video_path : string) (w0 : World),
  exists (res : option string) (w : World),
    convert_to_shorts_format mp video_path (Some recorder) w0 = (Returned res, w) /\
    match res with
    | Some out =>
        out = os_path_join PROCESSED_FOLDER ("shorts_" ++ os_path_basename video_path) /\
        (exists clip, written w = (written w0 ++ [(out, clip)])%list /\
                      duration clip <= max_duration) /\
        open_clips w = open_clips w0 /\
        last (progress_log w) (0, "") = (100, "Conversion complete!")
    | None =>
        written w = written w0 /\
        exists e, last (progress_log w) (100, "") = (0, "Error: " ++ e)
    end.
Proof.
  intros mp video_path w0.
  unfold convert_to_shorts_format, convert_body. run_py. cbn.
  destruct (video_file_clip mp video_path) as [[d [width height]]|e]; cbn.
  2:{ eexists; eexists; split; [reflexivity|]. cbn. split; [reflexivity|].
      exists e. apply last_last. }
  destruct (Qgtb d max_duration) eqn:Hd; cbn;
    (destruct (current_aspect_ratio width height) as [current|e]; cbn;
     [|eexists; eexists; split; [reflexivity|]; cbn; split; [reflexivity|];
       exists e; apply last_last]);
    (case_write_videofile; cbn;
     [eexists; eexists; split; [reflexivity|]; cbn; split; [reflexivity|];
      eexists; apply last_last|]);
    (eexists; eexists; split; [reflexivity|]); cbn;
    (split; [reflexivity|]);
    (split; [eexists; split; [reflexivity|]|split; [reflexivity|apply last_last]]).
  - unfold adjust_aspect_ratio. destruct (crop_rect _ _ _); cbn; unfold max_duration; lra.
  - unfold adjust_aspect_ratio. apply Qgtb_false in Hd.
    destruct (crop_rect _ _ _); cbn; exact Hd.
Qed.

(** X5.  A file whose height reads 0 is not rendered: the division of line 121
    raises, the stage returns None and its reports are 10, 30, 50 and then 0
    with "Error: division by zero". *)
Theorem convert_zero_height_is_caught :
  forall (mp : MoviePy) (video_path : string) (d : Q) (width : Z) (w0 : World),
    video_file_clip mp video_path = Returned (d, (width, 0%Z)) ->
    exists w,
      convert_to_shorts_format mp video_path (Some recorder) w0 = (Returned None, w) /\
      written w = written w0 /\
      progress_log w
      = (progress_log w0
           ++ [(10, "Loading video..."); (30, "Checking duration...");
               (50, "Checking aspect ratio..."); (0, "Error: division by zero")])%list.
Proof.
  intros mp video_path d width w0 Hload.
  unfold convert_to_shorts_format, convert_body. run_py.
  rewrite Hload. cbn.
  destruct (Qgtb d max_duration); cbn;
    (eexists; split; [reflexivity|]); cbn; (split; [reflexivity|]);
    rewrite <- !app_assoc; reflexivity.
Qed.

Lemma convert_zero_height_witness :
  exists w,
    convert_to_shorts_format (healthy 10 640 0) "uploads/a.mp4" (Some recorder) initial_world
    = (Returned None, w) /\
    written w = written initial_world /\
    progress_log w
    = (progress_log initial_world
         ++ [(10, "Loading video..."); (30, "Checking duration...");
             (50, "Checking aspect ratio..."); (0, "Error: division by zero")])%list.
Proof.
  apply (convert_zero_height_is_caught (healthy 10 640 0) "uploads/a.mp4" 10 640%Z).
  reflexivity.
Defined.

(** X6.  Whatever path the stage is given, the path it returns is
    processed/shorts_<name> where <name> is the last component of the input
    and holds no slash: the output is a direct child of the processed folder. *)
Theorem convert_output_stays_in_processed :
  forall (mp : MoviePy) (video_path : string) (cb : option Callback)
         (w0 w : World) (out : string),
    cb = None \/ cb = Some recorder ->
    convert_to_shorts_format mp video_path cb w0 = (Returned (Some out), w) ->
    exists name,
      out = "processed/shorts_" ++ name /\
      str_in "/" name = false /\
      name = os_path_basename video_path.
Proof.
  intros mp video_path cb w0 w out Hcb.
  unfold convert_to_shorts_format, convert_body. run_py.
  destruct Hcb as [-> | ->]; cbn;
    (destruct (video_file_clip mp video_path) as [[d [width height]]|e];
     cbn; [|discriminate]);
    destruct (Qgtb d max_duration); cbn;
    (destruct (current_aspect_ratio width height); cbn; [|discriminate]);
    (case_write_videofile; cbn; [discriminate|]);
    intros H; inversion H; subst;
    exists (os_path_basename video_path);
    (split; [reflexivity|]); (split; [apply basename_no_slash|reflexivity]).
Qed.

Lemma convert_output_witness :
  exists name,
    "processed/shorts_clip.mp4" = "processed/shorts_" ++ name /\
    str_in "/" name = false /\
    name = os_path_basename "/tmp/../etc/clip.mp4".
Proof.
  apply (convert_output_stays_in_processed (healthy 10 1080 1920) "/tmp/../etc/clip.mp4"
           None initial_world
           (snd (convert_to_shorts_format (healthy 10 1080 1920) "/tmp/../etc/clip.mp4"
                                          None initial_world)));
    [left; reflexivity | reflexivity].
Defined.

(** ** The fetcher *)

(** X7.  With a recording callback the fetcher never raises and touches no
    clip and no rendered file.  When it returns a path its last report is 100
    percent, and for a non-platform URL the path is the one named after the
    clock.  When it returns None, either no stream qualified, and the only
    report is the first one, or its last report is 0 percent with an error
    text. *)
Theorem download_outcome :
  forall (tr : Transport) (url : string) (w0 : World),
  exists (res : option string) (w : World),
    download_video tr url (Some recorder) w0 = (Returned res, w) /\
    open_clips w = open_clips w0 /\ written w = written w0 /\
    match res with
    | Some path =>
        last (progress_log w) (0, "") = (100, "Download complete!") /\
        (is_youtube_url url = false -> path = video_name (time_time tr))
    | None =>
        (is_youtube_url url = true /\ first_stream tr url = Returned None /\
         progress_log w = (progress_log w0 ++ [(10, "Starting download...")])%list) \/
        (exists e, last (progress_log w) (100, "") = (0, "Error: " ++ e))
    end.
Proof.
  intros tr url w0.
  unfold download_video, download_body. run_py. cbn -[video_name].
  destruct (is_youtube_url url) eqn:Hurl; cbn -[video_name].
  - destruct (first_stream tr url) as [[st|]|e]; cbn.
    + destruct (stream_download tr st UPLOAD_FOLDER) as [path|e]; cbn;
        eexists; eexists; (split; [reflexivity|]); cbn;
        (split; [reflexivity|]); (split; [reflexivity|]).
      * split; [apply last_last | discriminate].
      * right. eexists. apply last_last.
    + eexists; eexists; (split; [reflexivity|]); cbn.
      split; [reflexivity|]. split; [reflexivity|]. left. auto.
    + eexists; eexists; (split; [reflexivity|]); cbn.
      split; [reflexivity|]. split; [reflexivity|]. right. eexists. apply last_last.
  - destruct (urlretrieve tr url (video_name (time_time tr))) as [e|]; cbn -[video_name];
      eexists; eexists; (split; [reflexivity|]); cbn -[video_name];
      (split; [reflexivity|]); (split; [reflexivity|]).
    + right. eexists. apply last_last.
    + split; [apply last_last | reflexivity].
Qed.

(** X8.  The strategy is chosen by the URL alone: a platform URL reaches
    pytube (and its stream download) and never urlretrieve; any other URL
    makes exactly one urlretrieve call and never reaches pytube. *)
Theorem download_strategy_by_url :
  forall (tr : Transport) (url : string) (cb : option Callback) (w0 : World),
    cb = None \/ cb = Some recorder ->
    let w := snd (download_video tr url cb w0) in
    if is_youtube_url url
    then network w = (network w0 ++ ["pytube.YouTube"])%list \/
         network w = (network w0 ++ ["pytube.YouTube"; "stream.download"])%list
    else network w = (network w0 ++ ["urlretrieve"])%list.
Proof.
  intros tr url cb w0 Hcb.
  unfold download_video, download_body. run_py.
  destruct Hcb as [-> | ->]; cbn -[video_name];
    (destruct (is_youtube_url url); cbn -[video_name];
     [destruct (first_stream tr url) as [[st|]|e]; cbn;
      [destruct (stream_download tr st UPLOAD_FOLDER); cbn;
       right; rewrite <- app_assoc; reflexivity
      | left; reflexivity | left; reflexivity]
     | destruct (urlretrieve tr url (video_name (time_time tr))); cbn; reflexivity]).
Qed.

Lemma download_strategy_witness :
  if is_youtube_url "https://example.com/a.mp4"
  then network (snd (download_video (Scenario.generic_at 5) "https://example.com/a.mp4"
                                    None initial_world))
       = (network initial_world ++ ["pytube.YouTube"])%list \/
       network (snd (download_video (Scenario.generic_at 5) "https://example.com/a.mp4"
                                    None initial_world))
       = (network initial_world ++ ["pytube.YouTube"; "stream.download"])%list
  else network (snd (download_video (Scenario.generic_at 5) "https://example.com/a.mp4"
                                    None initial_world))
       = (network initial_world ++ ["urlretrieve"])%list.
Proof.
  apply (download_strategy_by_url (Scenario.generic_at 5) "https://example.com/a.mp4"
           None initial_world).
  left; reflexivity.
Defined.

(** X9.  The platform test of line 55 is a substring test: a URL that holds
    "youtube.com" or "youtu.be" anywhere, in its host, path or query, is
    treated as a platform URL. *)
Theorem platform_match_is_by_substring :
  forall (before after : string),
    is_youtube_url (before ++ "youtube.com" ++ after) = true /\
    is_youtube_url (before ++ "youtu.be" ++ after) = true.
Proof.
  intros before after. unfold is_youtube_url. split.
  - rewrite str_in_middle by discriminate. reflexivity.
  - rewrite (str_in_middle "youtu.be") by discriminate. apply orb_true_r.
Qed.

(** X10.  Fetch, then transform.  A generic fetch that succeeds at clock
    reading t hands uploads/video_<int(t)>.mp4 to the transformer, which, when
    the file loads with a non-zero height and renders, returns
    processed/shorts_video_<int(t)>.mp4; the two stages together make one
    network call and leave no clip open. *)
Theorem fetch_then_convert_path :
  forall (tr : Transport) (mp : MoviePy) (url : string) (d : Q) (width height : Z)
         (w0 : World),
    is_youtube_url url = false ->
    urlretrieve tr url (video_name (time_time tr)) = None ->
    video_file_clip mp (video_name (time_time tr)) = Returned (d, (width, height)) ->
    height <> 0%Z ->
    (forall clip path, write_videofile mp clip path = None) ->
    exists w1 w2,
      download_video tr url None w0 = (Returned (Some (video_name (time_time tr))), w1) /\
      convert_to_shorts_format mp (video_name (time_time tr)) None w1
      = (Returned (Some ("processed/shorts_video_"
                           ++ str_int (py_int (time_time tr)) ++ ".mp4")), w2) /\
      network w2 = (network w0 ++ ["urlretrieve"])%list /\
      open_clips w2 = open_clips w0.
Proof.
  intros tr mp url d width height w0 Hgen Hfetch Hload Hheight Hwrite.
  assert (Hcur := nonzero_height_ratio width height Hheight).
  unfold download_video, download_body, convert_to_shorts_format, convert_body. run_py.
  rewrite Hgen. cbn -[video_name]. rewrite Hfetch, Hload. cbn -[video_name].
  rewrite basename_video_name.
  destruct (Qgtb d max_duration); cbn -[video_name]; rewrite Hcur; cbn -[video_name];
    rewrite Hwrite; cbn -[video_name];
    eexists; eexists; (split; [reflexivity|]); (split; [reflexivity|]);
    cbn; split; reflexivity.
Qed.

Lemma fetch_then_convert_witness :
  exists w1 w2,
    download_video (Scenario.generic_at 1700000000) "https://example.com/a.mp4"
                   None initial_world
    = (Returned (Some (video_name 1700000000)), w1) /\
    convert_to_shorts_format (healthy 20 1080 1920) (video_name 1700000000) None w1
    = (Returned (Some ("processed/shorts_video_"
                         ++ str_int (py_int 1700000000) ++ ".mp4")), w2) /\
    network w2 = (network initial_world ++ ["urlretrieve"])%list /\
    open_clips w2 = open_clips initial_world.
Proof.
  apply (fetch_then_convert_path (Scenario.generic_at 1700000000) (healthy 20 1080 1920)
           "https://example.com/a.mp4" 20 1080%Z 1920%Z initial_world);
    [reflexivity | reflexivity | reflexivity | discriminate | reflexivity].
Defined.

(** ** The authenticator beyond the valid stored session *)

(** X11.  A payload that json.loads rejects makes the stage return
    (False, "Authentication failed: <error>") without touching anything: no
    file is written, no consent is asked, no service is installed. *)
Theorem authenticate_rejects_malformed_payload :
  forall (oa : OAuth) (credentials_json e : string) (w0 : World),
    json_loads oa credentials_json = Raised e ->
    authenticate_youtube oa credentials_json w0
    = (Returned (false, "Authentication failed: " ++ e), w0).
Proof.
  intros oa credentials_json e w0 Hjson. run_auth. rewrite Hjson. reflexivity.
Qed.

Lemma authenticate_rejects_malformed_witness :
  authenticate_youtube Cases.strict_oauth "" initial_world
  = (Returned (false, "Authentication failed: " ++ "Expecting value"), initial_world).
Proof.
  apply authenticate_rejects_malformed_payload. reflexivity.
Defined.

(** X12.  Once the payload parses, one call asks the user for consent at most
    once, and it does so exactly when there are no stored credentials, or the
    stored ones are invalid and cannot be refreshed (not expired, or without a
    refresh token), and the flow can be built from the secrets file; when
    building the flow raises, the user is not asked. *)
Theorem authenticate_consent_count :
  forall (oa : OAuth) (credentials_json info : string) (w0 : World),
    json_loads oa credentials_json = Returned info ->
    consent_flows (snd (authenticate_youtube oa credentials_json w0))
    = (consent_flows w0
       + (if needs_consent (token_pickle w0)
          then match from_client_secrets_file oa info with
               | None => 1
               | Some _ => 0
               end
          else 0))%nat.
Proof.
  intros oa credentials_json info w0 Hjson. run_auth. rewrite Hjson. cbn.
  destruct (token_pickle w0) as [c|]; cbn;
    auth_cases oa info c; cbn; lia.
Qed.

Lemma authenticate_consent_count_witness :
  consent_flows
    (snd (authenticate_youtube Cases.consent_denied "{secret}" initial_world))
  = (consent_flows initial_world
     + (if needs_consent (token_pickle initial_world)
        then match from_client_secrets_file Cases.consent_denied "{secret}" with
             | None => 1
             | Some _ => 0
             end
        else 0))%nat.
Proof.
  apply (authenticate_consent_count Cases.consent_denied "{secret}" "{secret}").
  reflexivity.
Defined.

(** A payload that parses but is no client-secrets file: the flow cannot be
    built, the call fails, and the user is never asked. *)
Example no_consent_without_flow :
  authenticate_youtube Scenario.oauth "{}" initial_world
  = (Returned (false, "Authentication failed: Client secrets must be for a web or installed app."),
     set_temp_client_secret (Some "{}") initial_world).
Proof. reflexivity. Qed.

(** X13.  The stage never raises.  On success the message is
    "Authentication successful", the temporary secret file is gone, and the
    installed service uses exactly the credentials stored in token.pickle.  On
    failure the message starts with "Authentication failed: " and the
    previously installed service, if any, is kept. *)
Theorem authenticate_outcome :
  forall (oa : OAuth) (credentials_json : string) (w0 : World),
  exists (ok : bool) (msg : string) (w : World),
    authenticate_youtube oa credentials_json w0 = (Returned (ok, msg), w) /\
    if ok
    then msg = "Authentication successful" /\
         temp_client_secret w = None /\
         exists c, youtube_service w = Some c /\ token_pickle w = Some c
    else (exists e, msg = "Authentication failed: " ++ e) /\
         youtube_service w = youtube_service w0.
Proof.
  intros oa credentials_json w0. run_auth.
  destruct (json_loads oa credentials_json) as [info|e]; cbn.
  2:{ eexists; eexists; eexists; split; [reflexivity|]. cbn. eauto. }
  destruct (token_pickle w0) as [c|] eqn:Htok; cbn;
    auth_cases oa info c;
    eexists; eexists; eexists; (split; [reflexivity|]); cbn; eauto 6.
Qed.

(** X14.  The client secret written to temp_client_secret.json is removed on
    success only: after a call whose payload parsed, the file is absent when
    the call succeeded and still holds the secret when it failed. *)
Theorem authenticate_leaves_secret_on_failure :
  forall (oa : OAuth) (credentials_json info msg : string) (ok : bool) (w0 w : World),
    json_loads oa credentials_json = Returned info ->
    authenticate_youtube oa credentials_json w0 = (Returned (ok, msg), w) ->
    temp_client_secret w = if ok then None else Some info.
Proof.
  intros oa credentials_json info msg ok w0 w Hjson. run_auth. rewrite Hjson. cbn.
  destruct (token_pickle w0) as [c|] eqn:Htok; cbn;
    auth_cases oa info c; intros H; inversion H; reflexivity.
Qed.

Lemma authenticate_leaves_secret_witness :
  temp_client_secret
    (snd (authenticate_youtube Cases.consent_denied "{secret}" initial_world))
  = if false then None else Some "{secret}".
Proof.
  apply (authenticate_leaves_secret_on_failure Cases.consent_denied "{secret}" "{secret}"
           ("Authentication failed: " ++ "access_denied") false initial_world);
    reflexivity.
Defined.

(** X15.  Stored credentials that are invalid, expired and carry a refresh
    token are refreshed without asking the user.  If the refresh succeeds and
    the service builds, the refreshed credentials are stored and installed; if
    the refresh raises, the call fails with that error, keeps the stored
    credentials, and does not fall back to the consent flow. *)
Theorem authenticate_refreshes_silently :
  forall (oa : OAuth) (credentials_json info : string) (stored : Credentials) (w0 : World),
    json_loads oa credentials_json = Returned info ->
    token_pickle w0 = Some stored ->
    valid stored = false -> expired stored = true -> refresh_token stored = true ->
    (forall fresh,
        refresh oa stored = Returned fresh ->
        build oa fresh = None ->
        exists w,
          authenticate_youtube oa credentials_json w0
          = (Returned (true, "Authentication successful"), w) /\
          token_pickle w = Some fresh /\ youtube_service w = Some fresh /\
          consent_flows w = consent_flows w0) /\
    (forall e,
        refresh oa stored = Raised e ->
        exists w,
          authenticate_youtube oa credentials_json w0
          = (Returned (false, "Authentication failed: " ++ e), w) /\
          token_pickle w = Some stored /\ youtube_service w = youtube_service w0 /\
          consent_flows w = consent_flows w0).
Proof.
  intros oa credentials_json info stored w0 Hjson Htok Hvalid Hexp Href.
  run_auth. rewrite Hjson. cbn. rewrite Htok, Hvalid, Hexp, Href. cbn.
  split.
  - intros fresh Hfresh Hbuild. rewrite Hfresh. cbn. rewrite Hbuild. cbn.
    eexists. split; [reflexivity|]. cbn. auto.
  - intros e Hraise. rewrite Hraise. cbn.
    eexists. split; [reflexivity|]. cbn. auto.
Qed.

Lemma authenticate_refreshes_witness :
  exists w,
    authenticate_youtube Cases.refreshing_oauth "{}" Cases.with_expired_token
    = (Returned (true, "Authentication successful"), w) /\
    token_pickle w = Some Cases.refreshed_session /\
    youtube_service w = Some Cases.refreshed_session /\
    consent_flows w = consent_flows Cases.with_expired_token.
Proof.
  apply (proj1 (authenticate_refreshes_silently
                  Cases.refreshing_oauth "{}" "{}" Cases.expired_session
                  Cases.with_expired_token eq_refl eq_refl eq_refl eq_refl eq_refl)
               Cases.refreshed_session); reflexivity.
Defined.

(** ** The publisher beyond the progress scale *)

Lemma split_comma_nonempty (s : string) : split_comma s <> [].
Proof.
  destruct s as [|c s]; cbn; [discriminate|].
  destruct (Ascii.eqb c ","); [discriminate|].
  destruct (split_comma s); discriminate.
Qed.

Lemma join_split_comma (s : string) : join_comma (split_comma s) = s.
Proof.
  induction s as [|c s IH]; [reflexivity|].
  cbn [split_comma].
  destruct (Ascii.eqb_spec c ","%char) as [->|Hne].
  - pose proof (split_comma_nonempty s) as Hs.
    destruct (split_comma s) as [|h t] eqn:E; [contradiction|].
    cbn [join_comma append] in *. now rewrite IH.
  - pose proof (split_comma_nonempty s) as Hs.
    destruct (split_comma s) as [|h t] eqn:E; [contradiction|].
    destruct t as [|h' t'].
    + cbn [join_comma] in *. now rewrite IH.
    + cbn [join_comma append] in *. now rewrite IH.
Qed.

Lemma length_split_comma (s : string) :
  List.length (split_comma s) = S (count_commas s).
Proof.
  induction s as [|c s IH]; [reflexivity|].
  cbn [split_comma count_commas].
  destruct (Ascii.eqb c ","%char).
  - cbn. now rewrite IH.
  - pose proof (split_comma_nonempty s) as Hs.
    destruct (split_comma s) as [|h t] eqn:E; [contradiction|].
    cbn in *. exact IH.
Qed.

Lemma split_comma_pieces (s : string) :
  Forall (fun piece => count_commas piece = 0%nat) (split_comma s).
Proof.
  induction s as [|c s IH]; [repeat constructor|].
  cbn [split_comma].
  destruct (Ascii.eqb c ","%char) eqn:Hc.
  - constructor; [reflexivity | exact IH].
  - destruct (split_comma s) as [|h t] eqn:E.
    + repeat constructor. cbn. now rewrite Hc.
    + inversion IH; subst. constructor; [|assumption].
      cbn. now rewrite Hc.
Qed.

(** X16.  The tags of the request body join back, with commas, to the keywords
    string; there is one tag more than there are commas, none when the
    keywords are empty (never a single empty tag), and no tag holds a comma. *)
Theorem tags_round_trip :
  forall (title description category_id keywords privacy_status : string),
    let body := make_body title description category_id keywords privacy_status in
    join_comma (tags body) = keywords /\
    List.length (tags body)
    = (if str_truthy keywords then S (count_commas keywords) else 0%nat) /\
    Forall (fun tag => count_commas tag = 0%nat) (tags body).
Proof.
  intros title description category_id keywords privacy_status. cbn.
  destruct keywords as [|c rest]; cbn [str_truthy].
  - repeat split. constructor.
  - split; [apply join_split_comma|].
    split; [apply length_split_comma | apply split_comma_pieces].
Qed.

Lemma calls_snoc (l : list string) (n : nat) :
  ((l ++ ["next_chunk"]) ++ calls n = l ++ calls (S n))%list.
Proof. rewrite <- app_assoc. reflexivity. Qed.

(** The loop runs through pending replies, one call each. *)
Lemma upload_loop_reaches (cb : option Callback) (pre rest : list ChunkReply)
      (last_reply : ChunkReply) (w0 : World) :
  cb = None \/ cb = Some recorder ->
  Forall pending pre ->
  exists w1,
    upload_loop cb (pre ++ last_reply :: rest) w0
    = upload_loop cb (last_reply :: rest) w1 /\
    network w1 = (network w0 ++ calls (List.length pre))%list /\
    youtube_service w1 = youtube_service w0 /\
    open_clips w1 = open_clips w0 /\ written w1 = written w0 /\
    (cb = None -> progress_log w1 = progress_log w0).
Proof.
  intros Hcb Hpre. revert w0.
  induction Hpre as [|reply pre [status ->] _ IH]; intros w0.
  - exists w0. split; [reflexivity|]. cbn [calls repeat List.length]. rewrite app_nil_r. auto.
  - cbn [app upload_loop]. run_py.
    destruct Hcb as [-> | ->]; destruct status as [p|]; cbn;
      match goal with
      | |- context [upload_loop ?c (pre ++ _) ?w] =>
          destruct (IH w) as (w1 & Hrun & Hnet & Hsvc & Hopen & Hwr & Hlog)
      end;
      exists w1; (split; [exact Hrun|]); cbn in *;
      rewrite Hnet, Hsvc, Hopen, Hwr; rewrite calls_snoc;
      repeat split; auto; try discriminate.
Qed.

(** X17.  On an authenticated processor, with a readable file, the upload
    stops at the first reply that carries a response: it returns
    (True, response), has called next_chunk once per reply up to that one and
    not once more, and, with a callback, reports 100 percent last. *)
Theorem upload_succeeds_at_first_response :
  forall (api : GoogleApi)
         (file_path title description category_id keywords privacy_status : string)
         (cb : option Callback) (w0 : World) (service : Credentials)
         (pre rest : list ChunkReply) (status : option Q) (response : string),
    cb = None \/ cb = Some recorder ->
    media_file_upload api file_path = None ->
    youtube_service w0 = Some service ->
    next_chunk api = (pre ++ Chunk status (Some response) :: rest)%list ->
    Forall pending pre ->
    exists w,
      upload_video api file_path title description category_id keywords
                   privacy_status cb w0
      = (Returned (Some (true, response)), w) /\
      network w = (network w0 ++ calls (S (List.length pre)))%list /\
      (cb = Some recorder ->
       last (progress_log w) (0, "") = (100, "Upload complete!")).
Proof.
  intros api file_path title description category_id keywords privacy_status
         cb w0 service pre rest status response Hcb Hmedia Hsvc Hscript Hpre.
  unfold upload_video, upload_body, videos_insert. run_py.
  rewrite Hmedia, Hscript.
  destruct Hcb as [-> | ->]; cbn; rewrite Hsvc; cbn;
    match goal with
    | |- context [upload_loop ?c (pre ++ ?r :: rest) ?w] =>
        destruct (upload_loop_reaches c pre rest r w) as (w1 & -> & Hnet & _);
        [auto | exact Hpre |]
    end;
    cbn [upload_loop]; run_py; destruct status as [p|]; cbn;
    (eexists; split; [reflexivity|]); cbn; cbn in Hnet; rewrite Hnet;
    (split; [unfold calls; rewrite <- app_assoc, <- repeat_cons; reflexivity|]);
    intros H; try discriminate; apply last_last.
Qed.

Lemma upload_succeeds_witness :
  exists w,
    upload_video Scenario.two_chunks "processed/shorts_a.mp4" "My short" "" "22" ""
                 "private" (Some recorder) Scenario.authenticated
    = (Returned (Some (true, "video-id")), w) /\
    network w = (network Scenario.authenticated ++ calls 2)%list /\
    (Some recorder = Some recorder ->
     last (progress_log w) (0, "") = (100, "Upload complete!")).
Proof.
  apply (upload_succeeds_at_first_response
           Scenario.two_chunks "processed/shorts_a.mp4" "My short" "" "22" "" "private"
           (Some recorder) Scenario.authenticated Scenario.session
           [Chunk (Some (1 # 2)) None] [] None "video-id");
    [right; reflexivity | reflexivity | reflexivity | reflexivity
    | repeat constructor; eexists; reflexivity].
Defined.

(** X18.  When next_chunk raises, the upload ends there: it returns
    (False, "Upload failed: <error>"), has called next_chunk once per reply up
    to the failing one, makes no further call (no retry, no resume), and, with
    a callback, reports 0 percent with the error last. *)
Theorem upload_fails_at_first_exception :
  forall (api : GoogleApi)
         (file_path title description category_id keywords privacy_status : string)
         (cb : option Callback) (w0 : World) (service : Credentials)
         (pre rest : list ChunkReply) (e : string),
    cb = None \/ cb = Some recorder ->
    media_file_upload api file_path = None ->
    youtube_service w0 = Some service ->
    next_chunk api = (pre ++ ChunkRaises e :: rest)%list ->
    Forall pending pre ->
    exists w,
      upload_video api file_path title description category_id keywords
                   privacy_status cb w0
      = (Returned (Some (false, "Upload failed: " ++ e)), w) /\
      network w = (network w0 ++ calls (S (List.length pre)))%list /\
      (cb = Some recorder ->
       last (progress_log w) (100, "") = (0, "Error: " ++ e)).
Proof.
  intros api file_path title description category_id keywords privacy_status
         cb w0 service pre rest e Hcb Hmedia Hsvc Hscript Hpre.
  unfold upload_video, upload_body, videos_insert. run_py.
  rewrite Hmedia, Hscript.
  destruct Hcb as [-> | ->]; cbn; rewrite Hsvc; cbn;
    match goal with
    | |- context [upload_loop ?c (pre ++ ?r :: rest) ?w] =>
        destruct (upload_loop_reaches c pre rest r w) as (w1 & -> & Hnet & _);
        [auto | exact Hpre |]
    end;
    cbn [upload_loop]; run_py; cbn;
    (eexists; split; [reflexivity|]); cbn; cbn in Hnet; rewrite Hnet;
    (split; [unfold calls; rewrite <- app_assoc, <- repeat_cons; reflexivity|]);
    intros H; try discriminate; apply last_last.
Qed.

Lemma upload_fails_witness :
  exists w,
    upload_video Cases.interrupted "processed/shorts_a.mp4" "My short" "" "22" ""
                 "private" (Some recorder) Scenario.authenticated
    = (Returned (Some (false, "Upload failed: " ++ "Connection reset by peer")), w) /\
    network w = (network Scenario.authenticated ++ calls 2)%list /\
    (Some recorder = Some recorder ->
     last (progress_log w) (100, "") = (0, "Error: " ++ "Connection reset by peer")).
Proof.
  apply (upload_fails_at_first_exception
           Cases.interrupted "processed/shorts_a.mp4" "My short" "" "22" "" "private"
           (Some recorder) Scenario.authenticated Scenario.session
           [Chunk (Some (1 # 4)) None] [Chunk None (Some "video-id")]
           "Connection reset by peer");
    [right; reflexivity | reflexivity | reflexivity | reflexivity
    | repeat constructor; eexists; reflexivity].
Defined.

(** X19.  When the file cannot be opened for upload the stage fails before it
    looks at the session or the network: it returns
    (False, "Upload failed: <error>"), makes no network call, and its reports
    are 10 and then 0 with the error. *)
Theorem upload_unreadable_file_stays_local :
  forall (api : GoogleApi)
         (file_path title description category_id keywords privacy_status e : string)
         (cb : option Callback) (w0 : World),
    cb = None \/ cb = Some recorder ->
    media_file_upload api file_path = Some e ->
    exists w,
      upload_video api file_path title description category_id keywords
                   privacy_status cb w0
      = (Returned (Some (false, "Upload failed: " ++ e)), w) /\
      network w = network w0 /\
      (cb = Some recorder ->
       progress_log w
       = (progress_log w0 ++ [(10, "Starting upload..."); (0, ("Error: " ++ e)%string)])%list).
Proof.
  intros api file_path title description category_id keywords privacy_status e
         cb w0 Hcb Hmedia.
  unfold upload_video, upload_body. run_py. rewrite Hmedia.
  destruct Hcb as [-> | ->]; cbn;
    (eexists; split; [reflexivity|]); cbn; (split; [reflexivity|]);
    intros H; try discriminate. rewrite <- app_assoc. reflexivity.
Qed.

Lemma upload_unreadable_witness :
  exists w,
    upload_video Cases.unreadable "missing.mp4" "My short" "" "22" ""
                 "private" (Some recorder) initial_world
    = (Returned (Some (false, "Upload failed: " ++ "No such file or directory")), w) /\
    network w = network initial_world /\
    (Some recorder = Some recorder ->
     progress_log w
     = (progress_log initial_world
          ++ [(10, "Starting upload...");
              (0, ("Error: " ++ "No such file or directory")%string)])%list).
Proof.
  apply (upload_unreadable_file_stays_local
           Cases.unreadable "missing.mp4" "My short" "" "22" "" "private"
           "No such file or directory" (Some recorder) initial_world);
    [right; reflexivity | reflexivity].
Defined.

(** ** The range of upload progress *)

Lemma chunk_percent_range (p : Q) :
  0 <= p -> p <= 1 -> 30 <= chunk_percent p /\ chunk_percent p <= 100.
Proof.
  intros H0 H1.
  destruct (chunk_progress_bounds p H0 H1) as (Hn & _).
  destruct (progress_percent_near_scale (chunk_progress p) Hn) as (_ & _ & H30 & H100).
  split; assumption.
Qed.

Lemma in_range_snoc (events : list ProgressEvent) (e : ProgressEvent) :
  Forall percent_in_range events -> percent_in_range e ->
  Forall percent_in_range (events ++ [e]).
Proof.
  intros H He. apply Forall_app. split; [exact H | constructor; [exact He | constructor]].
Qed.

Lemma constant_in_range (p : Q) (msg : string) :
  Qle_bool 0 p = true -> Qle_bool p 100 = true -> percent_in_range (p, msg).
Proof.
  intros H0 H1. split; apply Qle_bool_iff; assumption.
Qed.

Lemma acknowledgement_in_range (p : Q) (msg : string) :
  0 <= p -> p <= 1 -> percent_in_range (chunk_percent p, msg).
Proof.
  intros H0 H1. destruct (chunk_percent_range p H0 H1) as [Hlo Hhi].
  split; cbn; [lra | exact Hhi].
Qed.

Lemma upload_loop_in_range (script : list ChunkReply) (w0 : World) :
  Forall fraction_reply script ->
  Forall percent_in_range (progress_log w0) ->
  Forall percent_in_range
         (progress_log (snd (upload_loop (Some recorder) script w0))).
Proof.
  intros Hscript. revert w0.
  induction Hscript as [|reply script Hreply _ IH]; intros w0 Hlog; [exact Hlog|].
  cbn [upload_loop]. run_py. cbn.
  destruct reply as [e|[p|] [r|]]; cbn.
  - apply in_range_snoc; [exact Hlog | now apply constant_in_range].
  - destruct Hreply as [H0 H1].
    apply in_range_snoc; [apply in_range_snoc|];
      [exact Hlog | now apply constant_in_range | now apply acknowledgement_in_range].
  - destruct Hreply as [H0 H1].
    match goal with
    | |- context [upload_loop _ script ?w] => specialize (IH w)
    end.
    apply IH. cbn.
    apply in_range_snoc; [apply in_range_snoc|];
      [exact Hlog | now apply constant_in_range | now apply acknowledgement_in_range].
  - apply in_range_snoc; [exact Hlog | now apply constant_in_range].
  - match goal with
    | |- context [upload_loop _ script ?w] => specialize (IH w)
    end.
    apply IH. cbn.
    apply in_range_snoc; [exact Hlog | now apply constant_in_range].
Qed.

(** X20.  When every status the transport reports is a fraction between 0 and
    1, every percent the upload reports lies between 0 and 100, on success and
    on failure alike. *)
Theorem upload_percent_in_range :
  forall (api : GoogleApi)
         (file_path title description category_id keywords privacy_status : string)
         (w0 : World),
    Forall fraction_reply (next_chunk api) ->
    Forall percent_in_range (progress_log w0) ->
    Forall percent_in_range
           (progress_log (snd (upload_video api file_path title description category_id
                                            keywords privacy_status (Some recorder) w0))).
Proof.
  intros api file_path title description category_id keywords privacy_status w0
         Hscript Hlog.
  unfold upload_video, upload_body, videos_insert. run_py. cbn.
  destruct (media_file_upload api file_path) as [e|]; cbn.
  { repeat apply in_range_snoc; try exact Hlog; now apply constant_in_range. }
  destruct (youtube_service w0) as [service|]; cbn.
  2:{ repeat apply in_range_snoc; try exact Hlog; now apply constant_in_range. }
  match goal with
  | |- context [upload_loop ?c ?s ?w] =>
      pose proof (upload_loop_in_range s w Hscript) as Hloop;
      change (Some recorder) with c in Hloop;
      destruct (upload_loop c s w) as [[[r|]|e] w1]
  end; cbn in *.
  - apply in_range_snoc; [|now apply constant_in_range].
    apply Hloop. repeat apply in_range_snoc; try exact Hlog; now apply constant_in_range.
  - apply Hloop. repeat apply in_range_snoc; try exact Hlog; now apply constant_in_range.
  - apply in_range_snoc; [|now apply constant_in_range].
    apply Hloop. repeat apply in_range_snoc; try exact Hlog; now apply constant_in_range.
Qed.

Lemma upload_percent_in_range_witness :
  Forall percent_in_range
         (progress_log
            (snd (upload_video Scenario.mock_transport "processed/shorts_a.mp4" "My short"
                               "" "22" "" "private" (Some recorder)
                               Scenario.authenticated))).
Proof.
  apply (upload_percent_in_range Scenario.mock_transport "processed/shorts_a.mp4"
           "My short" "" "22" "" "private" Scenario.authenticated).
  - repeat constructor; vm_compute; discriminate.
  - constructor.
Defined.

(** ** The triggers *)

Lemma upload_loop_silent (script : list ChunkReply) (w0 : World) :
  progress_log (snd (upload_loop None script w0)) = progress_log w0.
Proof.
  revert w0. induction script as [|reply script IH]; intros w0; [reflexivity|].
  cbn [upload_loop]. run_py. cbn.
  destruct reply as [e|[p|] [r|]]; cbn; try reflexivity;
    match goal with
    | |- context [upload_loop None script ?w] => rewrite (IH w)
    end; reflexivity.
Qed.

Lemma upload_silent_without_callback
      (api : GoogleApi)
      (file_path title description category_id keywords privacy_status : string)
      (w0 : World) :
  progress_log (snd (upload_video api file_path title description category_id
                                  keywords privacy_status None w0))
  = progress_log w0.
Proof.
  unfold upload_video, upload_body, videos_insert. run_py. cbn.
  destruct (media_file_upload api file_path); cbn; [reflexivity|].
  destruct (youtube_service w0); cbn; [|reflexivity].
  pose proof (upload_loop_silent (next_chunk api) w0) as Hloop.
  destruct (upload_loop None (next_chunk api) w0) as [[[r|]|e] w1]; cbn in *; exact Hloop.
Qed.


Lemma convert_silent_without_callback (mp : MoviePy) (video_path : string) (w0 : World) :
  exists res w,
    convert_to_shorts_format mp video_path None w0 = (Returned res, w) /\
    progress_log w = progress_log w0.
Proof.
  unfold convert_to_shorts_format, convert_body. run_py. cbn.
  destruct (video_file_clip mp video_path) as [[d [width height]]|e]; cbn; eauto.
  destruct (Qgtb d max_duration); cbn;
    (destruct (current_aspect_ratio width height); cbn; eauto);
    case_write_videofile; cbn; eauto.
Qed.


(** On a path that is not a string the conversion fails, silently when it is
    given no callback. *)
Lemma processor_convert_silent
      (host : Route.Host) (mp : MoviePy) (video_path : Json.value) (w0 : World) :
  exists res w,
    Triggers.processor_convert_to_shorts_format host mp video_path None w0
    = (Returned res, w) /\
    progress_log w = progress_log w0.
Proof.
  destruct video_path as [|b|n|x|s|items|data];
    try apply convert_silent_without_callback;
    unfold Triggers.processor_convert_to_shorts_format; run_py; cbn;
    match goal with
    | |- context [Route.clip_on ?h ?v] =>
        destruct (Route.clip_on h v) as [[d [width height]]|e]
    end; cbn; eauto;
    destruct (current_aspect_ratio width height); cbn; eauto.
Qed.

(** X22.  The /api/process route answers from the request and the disk alone:
    500 with the text of the exception for a body that is not a JSON object,
    or when os.path.exists raises on the video_path (a float, a list, an
    object, or an integer no descriptor can hold); 400 "Invalid video path"
    for a missing, null, empty or otherwise falsy path, or one that does not
    exist; 200 "Processing started" otherwise, whether the conversion succeeds
    or fails.  The task it starts reports no progress. *)
Theorem process_route_answers_before_outcome :
  forall (host : Route.Host) (mp : MoviePy) (get_json : Json.value) (w0 : World),
  exists w,
    Triggers.process_video host mp get_json w0
    = (Returned
         match get_json with
         | Json.Object data =>
             let video_path := Json.get data "video_path" Json.Null in
             if Json.truthy video_path then
               match Route.os_path_exists host video_path with
               | Returned true => Route.mkResponse 200 true "Processing started"
               | Returned false => Route.mkResponse 400 false "Invalid video path"
               | Raised e => Route.mkResponse 500 false e
               end
             else Route.mkResponse 400 false "Invalid video path"
         | other =>
             Route.mkResponse 500 false
               ("'" ++ Json.type_name other ++ "' object has no attribute 'get'")
         end, w) /\
    progress_log w = progress_log w0.
Proof.
  intros host mp get_json w0.
  destruct get_json as [|b|n|x|s|items|data];
    try (exists w0; split; reflexivity).
  unfold Triggers.process_video, Triggers.invalid_video_path, Triggers.process_task.
  cbv zeta.
  destruct (Json.truthy (Json.get data "video_path" Json.Null)); cbn [negb];
    [|exists w0; split; reflexivity].
  destruct (Route.os_path_exists host (Json.get data "video_path" Json.Null))
    as [[|]|e]; try (exists w0; split; reflexivity).
  destruct (processor_convert_silent host mp (Json.get data "video_path" Json.Null) w0)
    as (res & w & Hrun & Hlog).
  exists w. run_py. cbn. rewrite Hrun. cbn. auto.
Qed.

(** On strings the publisher the route calls is [upload_video]. *)
Lemma processor_upload_video_on_strings
      (host : Route.Host) (api : GoogleApi)
      (file_path title description category_id keywords privacy_status : string)
      (progress_callback : option Callback) (w0 : World) :
  Route.processor_upload_video host api (Json.Str file_path) (Json.Str title)
    (Json.Str description) (Json.Str category_id) (Json.Str keywords)
    (Json.Str privacy_status) progress_callback w0
  = upload_video api file_path title description category_id keywords
                 privacy_status progress_callback w0.
Proof.
  unfold Route.processor_upload_video, upload_video, upload_body,
    Route.split_keywords, Route.media_file_upload, Route.videos_insert, videos_insert.
  cbn [Json.truthy]. run_py.
  destruct progress_callback as [cb|]; destruct (str_truthy keywords); reflexivity.
Qed.

Lemma processor_upload_silent
      (host : Route.Host) (api : GoogleApi)
      (file_path title description category_id keywords privacy_status : Json.value)
      (w0 : World) :
  exists res w,
    Route.processor_upload_video host api file_path title description category_id
                                 keywords privacy_status None w0
    = (Returned res, w) /\
    progress_log w = progress_log w0 /\
    (youtube_service w0 = None -> network w = network w0).
Proof.
  unfold Route.processor_upload_video, Route.videos_insert. run_py. cbn.
  destruct (Route.split_keywords keywords) as [tags|e]; cbn; [|eauto 6].
  destruct (Route.media_file_upload host api file_path); cbn; [eauto 6|].
  destruct (youtube_service w0) eqn:Hservice; cbn; [|eauto 6].
  pose proof (upload_loop_silent (next_chunk api) w0) as Hloop.
  destruct (upload_loop None (next_chunk api) w0) as [[[r|]|e] w1]; cbn in *;
    do 2 eexists; (split; [reflexivity|]); (split; [exact Hloop|]); discriminate.
Qed.

(** X23.  The /api/upload route answers 200 "Upload started" to every request
    that passes its check, whatever becomes of the upload; the task reports no
    progress, and on a processor that was never authenticated it makes no
    network call, so the request is accepted and nothing is uploaded. *)
Theorem upload_route_accepts_without_session :
  forall (host : Route.Host) (api : GoogleApi)
         (data : list (string * Json.value)) (w0 : World),
    Route.invalid_parameters host (Json.get data "video_path" Json.Null)
                             (Json.get data "title" Json.Null)
    = Returned false ->
    exists w,
      Route.upload_video host api (Json.Object data) w0
      = (Returned (Route.mkResponse 200 true "Upload started"), w) /\
      progress_log w = progress_log w0 /\
      (youtube_service w0 = None -> network w = network w0).
Proof.
  intros host api data w0 Hvalid.
  unfold Route.upload_video, Route.upload_task. cbv zeta. rewrite Hvalid.
  destruct (processor_upload_silent host api
              (Json.get data "video_path" Json.Null)
              (Json.get data "title" Json.Null)
              (Json.get data "description" (Json.Str ""))
              (Json.Str "22")
              (Json.get data "tags" (Json.Str ""))
              (Json.get data "privacy_status" (Json.Str "private")) w0)
    as (res & w & Hrun & Hlog & Hnet).
  exists w. run_py. cbn. rewrite Hrun. cbn. auto.
Qed.

Lemma upload_route_accepts_witness :
  exists w,
    Route.upload_video Cases.host Scenario.one_chunk Cases.publish_request
                       initial_world
    = (Returned (Route.mkResponse 200 true "Upload started"), w) /\
    progress_log w = progress_log initial_world /\
    (youtube_service initial_world = None -> network w = network initial_world).
Proof.
  apply (upload_route_accepts_without_session Cases.host Scenario.one_chunk
           [("video_path", Json.Str "processed/shorts_a.mp4");
            ("title", Json.Str "My short")]
           initial_world).
  reflexivity.
Defined.


